(** * Prophet BYOM service (examples/prophet-byom/app.py)

    A shallow embedding of the Flask handlers [healthz] and [predict] and of
    [ProphetForecaster.train_and_predict], with the JSON values they receive,
    the Python operations they apply to them, and the module-level
    [forecaster] object threaded as explicit state.  pandas, Prophet, the
    clock and the string parsers of the builtins are the service's
    collaborators: they are the fields of the class [Runtime]. *)

From Stdlib Require Import ZArith List String Ascii Bool Lia.
From Stdlib Require Import Sorted Permutation.
From Stdlib Require Import Floats.SpecFloat.
From Stdlib Require Import Decimal DecimalString.
Import ListNotations.

Local Open Scope string_scope.
Local Open Scope Z_scope.

(** ** JSON values, as [request.get_json()] hands them to the handler *)

#[local] Set Warnings "-register-all".

(** [JNull] is Python's [None]; a number is an [int] or a [float] (binary64,
    as [spec_float]); a [str] is the sequence of its characters, one [ascii]
    each; a [dict] is held as its items in insertion order (keys are
    unique). *)
Inductive json : Type :=
| JNull
| JBool (b : bool)
| JInt (z : Z)
| JFloat (x : spec_float)
| JStr (s : string)
| JArr (l : list json)
| JObj (kvs : list (string * json)).

(** ** Exceptions *)

(** The handler distinguishes two classes below [Exception]: [ValueError]
    (with its subclasses), whose [str(e)] is echoed to the client, and every
    other class, named here for the log only. *)
Inductive exn : Type :=
| ValueError (msg : string)
| OtherError (cls : string).

Definition result (A : Type) : Type := (exn + A)%type.

Definition rbind {A B} (r : result A) (k : A -> result B) : result B :=
  match r with
  | inl e => inl e
  | inr a => k a
  end.

Notation "'let?' x ':=' r 'in' k" := (rbind r (fun x => k))
  (at level 10, x name, r at level 100, k at level 200).

Definition TypeError {A} : result A := inl (OtherError "TypeError").
Definition KeyError {A} : result A := inl (OtherError "KeyError").
Definition AttributeError {A} : result A := inl (OtherError "AttributeError").
Definition OverflowError {A} : result A := inl (OtherError "OverflowError").
Definition ZeroDivisionError {A} : result A := inl (OtherError "ZeroDivisionError").

(** ** HTTP responses *)

Record Response : Type := { status : Z; body : json }.

(** [jsonify({'error': msg}), code] *)
Definition error_response (msg : string) (code : Z) : Response :=
  {| status := code; body := JObj [("error", JStr msg)] |}.

(** ** Control flow of a handler body: fall through, [return], or raise *)

Inductive flow (A : Type) : Type :=
| Next (a : A)
| Return (r : Response)
| Raise (e : exn).
Arguments Next {A} a.
Arguments Return {A} r.
Arguments Raise {A} e.

Definition fbind {A B} (c : flow A) (k : A -> flow B) : flow B :=
  match c with
  | Next a => k a
  | Return r => Return r
  | Raise e => Raise e
  end.

Notation "x <- c ;; k" := (fbind c (fun x => k))
  (at level 61, c at next level, right associativity).

Definition call {A} (r : result A) : flow A :=
  match r with
  | inl e => Raise e
  | inr a => Next a
  end.

(** ** Python operations on JSON values *)

Definition SFzero : spec_float := S754_zero false.

(** [not v]: truth value testing. *)
Definition py_not (v : json) : bool :=
  match v with
  | JNull => true
  | JBool b => negb b
  | JInt z => z =? 0
  | JFloat x => SFeqb x SFzero
  | JStr s => match s with EmptyString => true | _ => false end
  | JArr l => match l with [] => true | _ => false end
  | JObj kvs => match kvs with [] => true | _ => false end
  end.

(** [p in s] on two strings: substring test. *)
Fixpoint is_substring (p s : string) : bool :=
  String.prefix p s ||
  match s with
  | EmptyString => false
  | String _ s' => is_substring p s'
  end.

Fixpoint lookup (key : string) (kvs : list (string * json)) : option json :=
  match kvs with
  | [] => None
  | (k, v) :: rest => if String.eqb key k then Some v else lookup key rest
  end.

Definition has_key (key : string) (kvs : list (string * json)) : bool :=
  match lookup key kvs with Some _ => true | None => false end.

Definition is_str (key : string) (v : json) : bool :=
  match v with
  | JStr t => String.eqb key t
  | _ => false
  end.

(** [key in container], for a string [key]. *)
Definition py_in (key : string) (container : json) : result bool :=
  match container with
  | JObj kvs => inr (has_key key kvs)
  | JArr l => inr (existsb (is_str key) l)
  | JStr s => inr (is_substring key s)
  | _ => TypeError
  end.

(** [container[key]], for a string [key]. *)
Definition getitem (container : json) (key : string) : result json :=
  match container with
  | JObj kvs => match lookup key kvs with Some v => inr v | None => KeyError end
  | _ => TypeError
  end.

(** [f.get(key, default)] *)
Definition py_get (f : json) (key : string) (default : json) : result json :=
  match f with
  | JObj kvs => inr (match lookup key kvs with Some v => v | None => default end)
  | _ => AttributeError
  end.

(** [len(v)] *)
Definition py_len (v : json) : result Z :=
  match v with
  | JStr s => inr (Z.of_nat (String.length s))
  | JArr l => inr (Z.of_nat (List.length l))
  | JObj kvs => inr (Z.of_nat (List.length kvs))
  | _ => TypeError
  end.

Fixpoint chars (s : string) : list json :=
  match s with
  | EmptyString => []
  | String c s' => JStr (String c EmptyString) :: chars s'
  end.

(** The items a [for] loop over [v] visits: the elements of a list, the
    characters of a string, the keys of a dict. *)
Definition py_iter (v : json) : result (list json) :=
  match v with
  | JStr s => inr (chars s)
  | JArr l => inr l
  | JObj kvs => inr (map (fun kv => JStr (fst kv)) kvs)
  | _ => TypeError
  end.

(** [int(x)] on a float: truncation toward zero. *)
Definition int_of_float (x : spec_float) : result Z :=
  match x with
  | S754_zero _ => inr 0
  | S754_infinity _ => OverflowError
  | S754_nan => inl (ValueError "cannot convert float NaN to integer")
  | S754_finite s m e =>
      let a := Z.shiftl (Zpos m) e in
      inr (if s then - a else a)
  end.

(** [a // b] on ints. *)
Definition floordiv (a b : Z) : result Z :=
  if b =? 0 then ZeroDivisionError else inr (a / b).

(** [l[:n]] *)
Definition slice_to {A} (l : list A) (n : Z) : list A :=
  if 0 <=? n then firstn (Z.to_nat n) l
  else firstn (Z.to_nat (Z.of_nat (List.length l) + n)) l.

(** [max(0, x)]: [x] when [x > 0], else the first argument; the [0] that
    [max] returns sits in the float64 series as [+0.0]. *)
Definition max0 (x : spec_float) : spec_float :=
  if SFltb SFzero x then x else SFzero.

(** [str(i)] inside an f-string, for a loop index. *)
Definition str_of_nat (i : nat) : string := NilEmpty.string_of_uint (Nat.to_uint i).

(** ** The data frame handed to Prophet *)

(** A pandas timestamp, tz-aware or tz-naive: nanoseconds since the epoch
    (of the instant in UTC when aware, of the wall clock when naive), or
    [NaT]. *)
Inductive Timestamp : Type :=
| Ts (aware : bool) (ns : Z)
| NaT.

Record Row : Type := { ds : Timestamp; y : spec_float }.

(** Ascending order of [sort_values] on a datetime column, [NaT] last. *)
Definition ds_leb (a b : Timestamp) : bool :=
  match a, b with
  | _, NaT => true
  | NaT, Ts _ _ => false
  | Ts _ x, Ts _ z => x <=? z
  end.



Definition is_aware (t : Timestamp) : bool :=
  match t with
  | Ts aware _ => aware
  | NaT => false
  end.

Definition is_naive (t : Timestamp) : bool :=
  match t with
  | Ts aware _ => negb aware
  | NaT => false
  end.

(** The [ds] column holds both tz-aware and tz-naive timestamps: pandas
    keeps them as objects, and comparing one of each raises [TypeError]. *)
Definition mixed_tz (rows : list Row) : bool :=
  existsb (fun r => is_aware (ds r)) rows && existsb (fun r => is_naive (ds r)) rows.

(** ** Collaborators *)

(** What the service calls and does not define: [int] on a [str] (the value,
    or the message of the [ValueError]), the builtin [float],
    [pd.to_datetime], [DataFrame.sort_values] (the column to sort by, the
    frame; default [kind]), Prophet's [fit], [make_future_dataframe] (model,
    periods, step in seconds) and [predict] (its [yhat] column), and
    [datetime.isoformat]. *)
Class Runtime : Type := {
  datetime : Type;
  isoformat : datetime -> string;
  int_of_str : string -> string + Z;
  py_float : json -> result spec_float;
  to_datetime : json -> result Timestamp;
  sort_values : string -> list Row -> result (list Row);
  Model : Type;
  fit : list Row -> result Model;
  make_future_dataframe : Model -> Z -> Z -> result (list Timestamp);
  model_predict : Model -> list Timestamp -> result (list spec_float)
}.

(** ** The service *)

(** [int(x)] *)
Definition py_int `{R : Runtime} (v : json) : result Z :=
  match v with
  | JBool b => inr (if b then 1 else 0)
  | JInt z => inr z
  | JFloat x => int_of_float x
  | JStr s => match int_of_str s with
              | inl msg => inl (ValueError msg)
              | inr z => inr z
              end
  | _ => TypeError
  end.

(** The module-level [forecaster = ProphetForecaster()]. *)
Record ProphetForecaster `{R : Runtime} : Type := {
  model : option Model;
  last_trained : option datetime
}.

(** [ProphetForecaster.__init__] *)
Definition init `{R : Runtime} : ProphetForecaster :=
  {| model := None; last_trained := None |}.

Section Service.
Context `{R : Runtime}.

(** Lines 31-34: the row of one feature; [ds] is evaluated before [y]. *)
Definition row_of (f : json) : result Row :=
  let? ts := getitem f "ts" in
  let? d := to_datetime ts in
  let? v := py_get f "value" (JInt 0) in
  let? val := py_float v in
  inr {| ds := d; y := val |}.

(** Lines 30-36: one row per feature, in request order. *)
Fixpoint build_rows (items : list json) : result (list Row) :=
  match items with
  | [] => inr []
  | f :: rest =>
      let? r := row_of f in
      let? rows := build_rows rest in
      inr (r :: rows)
  end.

(** Lines 30-38: the frame [df] that [model.fit] receives
    ([reset_index(drop=True)] renumbers the rows and moves none). *)
Definition training_frame (features : json) : result (list Row) :=
  let? items := py_iter features in
  let? rows := build_rows items in
  sort_values "ds" rows.

(** Lines 54-66: what follows the fit. *)
Definition forecast (m : Model) (horizon_seconds step_seconds : Z)
  : result (list spec_float) :=
  let? num_periods := floordiv horizon_seconds step_seconds in
  let? future_df := make_future_dataframe m num_periods step_seconds in
  let? yhat := model_predict m future_df in
  let predictions := map max0 yhat in
  inr (slice_to predictions num_periods).

(** [train_and_predict(self, features, horizon_seconds, step_seconds)];
    [now] is what [datetime.now()] returns when line 52 runs. *)
Definition train_and_predict (now : datetime) (features : json)
    (horizon_seconds step_seconds : Z) (self : ProphetForecaster)
  : result (list spec_float) * ProphetForecaster :=
  if py_not features then (inl (ValueError "features cannot be empty"), self)
  else
    match training_frame features with
    | inl e => (inl e, self)
    | inr df =>
        match fit df with
        | inl e => (inl e, self)
        | inr m =>
            let self' := {| model := Some m; last_trained := Some now |} in
            (forecast m horizon_seconds step_seconds, self')
        end
    end.

(** [healthz()] *)
Definition healthz (forecaster : ProphetForecaster) : Response :=
  {| status := 200;
     body := JObj [("status", JStr "healthy");
                   ("model", JStr "prophet");
                   ("last_trained",
                    match last_trained forecaster with
                    | Some t => JStr (isoformat t)
                    | None => JNull
                    end)] |}.

Definition required_fields : list string :=
  ["horizonSeconds"; "stepSeconds"; "features"].

(** Lines 107-109 *)
Fixpoint check_required (data : json) (fields : list string) : flow unit :=
  match fields with
  | [] => Next tt
  | field :: rest =>
      present <- call (py_in field data) ;;
      if present then check_required data rest
      else Return (error_response ("missing required field: " ++ field) 400)
  end.

(** Lines 127-131, from index [i] on. *)
Fixpoint check_features (i : nat) (items : list json) : flow unit :=
  match items with
  | [] => Next tt
  | f :: rest =>
      has_ts <- call (py_in "ts" f) ;;
      if negb has_ts then
        Return (error_response
                  ("feature[" ++ str_of_nat i ++ "] missing required field: ts") 400)
      else
        has_value <- call (py_in "value" f) ;;
        if negb has_value then
          Return (error_response
                    ("feature[" ++ str_of_nat i ++ "] missing required field: value") 400)
        else check_features (S i) rest
  end.

(** Lines 103-131 of [predict]: the checks before the forecaster is called. *)
Definition validate (data : json) : flow (Z * Z * json) :=
  if py_not data then Return (error_response "request body is required" 400)
  else
    _ <- check_required data required_fields ;;
    h <- call (getitem data "horizonSeconds") ;;
    horizon_seconds <- call (py_int h) ;;
    s <- call (getitem data "stepSeconds") ;;
    step_seconds <- call (py_int s) ;;
    features <- call (getitem data "features") ;;
    if horizon_seconds <=? 0 then
      Return (error_response "horizonSeconds must be > 0" 400)
    else if step_seconds <=? 0 then
      Return (error_response "stepSeconds must be > 0" 400)
    else if step_seconds >? horizon_seconds then
      Return (error_response "stepSeconds cannot exceed horizonSeconds" 400)
    else
      too_few <- (if py_not features then Next true
                  else n <- call (py_len features) ;; Next (n <? 2)) ;;
      if (too_few : bool) then
        Return (error_response
                  "features must contain at least 2 points for Prophet" 400)
      else
        items <- call (py_iter features) ;;
        _ <- check_features 0 items ;;
        Next (horizon_seconds, step_seconds, features).

(** [jsonify(response), 200] of lines 137-144 *)
Definition ok_response (predictions : list spec_float) : Response :=
  {| status := 200;
     body := JObj [("metric", JStr "prophet_forecast");
                   ("values", JArr (map JFloat predictions))] |}.

(** The [try] block of [predict]; [get_json] is what [request.get_json()]
    does for this request (Flask raises or returns the parsed body). *)
Definition predict_try (now : datetime) (get_json : result json)
    (forecaster : ProphetForecaster) : flow Response * ProphetForecaster :=
  match get_json with
  | inl e => (Raise e, forecaster)
  | inr data =>
      match validate data with
      | Return r => (Return r, forecaster)
      | Raise e => (Raise e, forecaster)
      | Next (horizon_seconds, step_seconds, features) =>
          match train_and_predict now features horizon_seconds step_seconds
                  forecaster with
          | (inl e, forecaster') => (Raise e, forecaster')
          | (inr predictions, forecaster') =>
              (Return (ok_response predictions), forecaster')
          end
      end
  end.

(** [predict()] with its two [except] clauses. *)
Definition predict (now : datetime) (get_json : result json)
    (forecaster : ProphetForecaster) : Response * ProphetForecaster :=
  match predict_try now get_json forecaster with
  | (Next r, forecaster') => (r, forecaster')
  | (Return r, forecaster') => (r, forecaster')
  | (Raise (ValueError msg), forecaster') => (error_response msg 400, forecaster')
  | (Raise _, forecaster') =>
      (error_response "internal server error" 500, forecaster')
  end.

End Service.

(** ** The validation rules, one by one *)

Section Rules.
Context `{R : Runtime}.

(** A check looks at the raw body and either passes ([Next tt]), is violated
    with the 400 response that reports it ([Return]), or cannot be evaluated
    on this body ([Raise]).  A check that depends on a value an earlier check
    establishes passes when that value is not there. *)
Definition check : Type := json -> flow unit.

Definition body_present : check := fun data =>
  if py_not data then Return (error_response "request body is required" 400)
  else Next tt.













End Rules.

(** ** Requests over the life of the process *)

Section Process.
Context `{R : Runtime}.

(** The model a [/predict] request fits, when it gets that far and the fit
    succeeds (lines 27-50). *)
Definition fitted_model (get_json : result json) : option Model :=
  match get_json with
  | inr data =>
      match validate data with
      | Next (_, _, features) =>
          if py_not features then None
          else match training_frame features with
               | inr df => match fit df with
                           | inr m => Some m
                           | inl _ => None
                           end
               | inl _ => None
               end
      | _ => None
      end
  | inl _ => None
  end.

Inductive Request : Type :=
| GET_healthz
| POST_predict (now : datetime) (get_json : result json).

Definition serve (rq : Request) (forecaster : ProphetForecaster)
  : Response * ProphetForecaster :=
  match rq with
  | GET_healthz => (healthz forecaster, forecaster)
  | POST_predict now get_json => predict now get_json forecaster
  end.

(** The [forecaster] after a sequence of requests. *)
Definition run (requests : list Request) (forecaster : ProphetForecaster)
  : ProphetForecaster :=
  fold_left (fun st rq => snd (serve rq st)) requests forecaster.

Definition fit_succeeds (rq : Request) : bool :=
  match rq with
  | GET_healthz => false
  | POST_predict _ get_json =>
      match fitted_model get_json with Some _ => true | None => false end
  end.

(** The [last_trained] member of the health report. *)
Definition reported_last_trained (forecaster : ProphetForecaster) : option json :=
  match body (healthz forecaster) with
  | JObj kvs => lookup "last_trained" kvs
  | _ => None
  end.


End Process.

(** ** Order of the training series *)





(** [v >= 0] on floats. *)
Definition nonneg (v : spec_float) : Prop := SFleb SFzero v = true.

(** ** Well-formed requests *)

Definition is_object (v : json) : bool :=
  match v with
  | JObj _ => true
  | _ => false
  end.

(** Both membership tests of lines 128 and 130 answer yes. *)
Definition has_ts_and_value (f : json) : Prop :=
  py_in "ts" f = inr true /\ py_in "value" f = inr true.

(** The body is an object whose [horizonSeconds] and [stepSeconds] coerce to
    [h] and [s] with [0 < s <= h], and whose [features] iterates over at
    least two entries that each answer yes to both membership tests. *)
Definition well_formed `{R : Runtime} (data : json) (h s : Z) (features : json)
  : Prop :=
  exists kvs hv sv items,
    data = JObj kvs /\
    lookup "horizonSeconds" kvs = Some hv /\ py_int hv = inr h /\
    lookup "stepSeconds" kvs = Some sv /\ py_int sv = inr s /\
    lookup "features" kvs = Some features /\
    0 < h /\ 0 < s /\ s <= h /\
    py_iter features = inr items /\
    (2 <= List.length items)%nat /\
    Forall has_ts_and_value items.

(** The response the [except] clauses give for an exception. *)
Definition caught (e : exn) : Response :=
  match e with
  | ValueError msg => error_response msg 400
  | OtherError _ => error_response "internal server error" 500
  end.

(** ** Test doubles for the collaborators *)

Module Stub.

(** [float(z)] for an int: round to nearest binary64. *)
Definition float_of_Z (z : Z) : spec_float := binary_normalize 53 1024 z 0 false.

Definition stub_float (v : json) : result spec_float :=
  match v with
  | JBool b => inr (float_of_Z (if b then 1 else 0))
  | JInt z => inr (float_of_Z z)
  | JFloat x => inr x
  | JStr _ => inl (ValueError "could not convert string to float")
  | _ => TypeError
  end.

(** Plain decimal literals only. *)
Definition stub_int_of_str (s : string) : string + Z :=
  match NilZero.int_of_string s with
  | Some d => inr (Z.of_int d)
  | None => inl ("invalid literal for int() with base 10: '" ++ s ++ "'")
  end.

(** Days from 1970-01-01 to a date of the proleptic Gregorian calendar. *)
Definition days_from_civil (year month day : Z) : Z :=
  let y := if month <=? 2 then year - 1 else year in
  let era := y / 400 in
  let yoe := y - era * 400 in
  let mp := (month + 9) mod 12 in
  let doy := (153 * mp + 2) / 5 + day - 1 in
  let doe := yoe * 365 + yoe / 4 - yoe / 100 + doy in
  era * 146097 + doe - 719468.

Definition digit (c : ascii) : option Z :=
  let n := Z.of_nat (nat_of_ascii c) in
  if (48 <=? n) && (n <=? 57) then Some (n - 48) else None.

(** [n] decimal digits at the head of [cs], and what follows them. *)
Fixpoint digits (n : nat) (acc : Z) (cs : list ascii) : option (Z * list ascii) :=
  match n, cs with
  | O, _ => Some (acc, cs)
  | S n', c :: rest =>
      match digit c with
      | Some d => digits n' (10 * acc + d) rest
      | None => None
      end
  | S _, [] => None
  end.

Definition expect (c : ascii) (cs : list ascii) : option (list ascii) :=
  match cs with
  | c' :: rest => if Ascii.eqb c c' then Some rest else None
  | [] => None
  end.

Definition obind {A B} (o : option A) (k : A -> option B) : option B :=
  match o with
  | Some a => k a
  | None => None
  end.

(** The zone suffix: none (tz-naive), [Z], or [+hh:mm] / [-hh:mm]; the
    offset is in seconds east of UTC. *)
Definition zone (cs : list ascii) : option (bool * Z) :=
  match cs with
  | [] => Some (false, 0)
  | ["Z"%char] => Some (true, 0)
  | sign :: rest =>
      obind (digits 2 0 rest) (fun '(hh, rest) =>
      obind (expect ":" rest) (fun rest =>
      obind (digits 2 0 rest) (fun '(mm, rest) =>
      match rest with
      | [] =>
          if Ascii.eqb sign "+" then Some (true, hh * 3600 + mm * 60)
          else if Ascii.eqb sign "-" then Some (true, - (hh * 3600 + mm * 60))
          else None
      | _ => None
      end)))
  end.

(** [YYYY-MM-DD], optionally followed by [T] or a blank, [hh:mm:ss] and a
    zone. *)
Definition iso_timestamp (s : string) : option Timestamp :=
  obind (digits 4 0 (list_ascii_of_string s)) (fun '(year, cs) =>
  obind (expect "-" cs) (fun cs =>
  obind (digits 2 0 cs) (fun '(month, cs) =>
  obind (expect "-" cs) (fun cs =>
  obind (digits 2 0 cs) (fun '(day, cs) =>
  let date := days_from_civil year month day * 86400 in
  match cs with
  | [] => Some (Ts false (date * 1000000000))
  | sep :: cs =>
      if Ascii.eqb sep "T" || Ascii.eqb sep " " then
        obind (digits 2 0 cs) (fun '(hh, cs) =>
        obind (expect ":" cs) (fun cs =>
        obind (digits 2 0 cs) (fun '(mm, cs) =>
        obind (expect ":" cs) (fun cs =>
        obind (digits 2 0 cs) (fun '(ss, cs) =>
        obind (zone cs) (fun '(aware, east) =>
        Some (Ts aware
                ((date + hh * 3600 + mm * 60 + ss - east) * 1000000000))))))))
      else None
  end))))).

(** An int is read as nanoseconds since the epoch (tz-naive), [None] gives
    [NaT], a string is read as an ISO 8601 timestamp. *)
Definition stub_to_datetime (v : json) : result Timestamp :=
  match v with
  | JNull => inr NaT
  | JInt z => inr (Ts false z)
  | JStr s =>
      match iso_timestamp s with
      | Some t => inr t
      | None =>
          inl (ValueError ("Unknown datetime string format, unable to parse: " ++ s))
      end
  | _ => TypeError
  end.

(** Insertion sort that puts a row in front of the first row that is not
    earlier: rows with equal [ds] keep their order. *)
Fixpoint insert_stable (r : Row) (sorted : list Row) : list Row :=
  match sorted with
  | [] => [r]
  | r' :: rest =>
      if ds_leb (ds r) (ds r') then r :: sorted else r' :: insert_stable r rest
  end.

(** A stable stand-in for [sort_values]; it knows the [ds] column only. *)
Definition sort_stable (column : string) (rows : list Row)
  : result (list Row) :=
  if negb (String.eqb column "ds") then KeyError
  else if mixed_tz rows then TypeError
  else inr (fold_right insert_stable [] rows).

(** The latest [ds] of the history ([NaT] is skipped, as [max()] does). *)
Definition last_date (history : list Row) : Z :=
  fold_right (fun r acc => match ds r with Ts _ t => Z.max t acc | NaT => acc end)
             0 history.

(** [periods] dates after the last historical one, [step] seconds apart, in
    the zone of the history. *)
Definition stub_future (history : list Row) (periods step : Z)
  : result (list Timestamp) :=
  if periods <? 0 then
    inl (ValueError "Number of periods must be non-negative")
  else
    inr (map (fun k => Ts (existsb (fun r => is_aware (ds r)) history)
                          (last_date history + Z.of_nat (S k) * step * 1000000000))
             (seq 0 (Z.to_nat periods))).

(** One forecast per future date: 420.0 on even positions, -3.5 on odd. *)
Fixpoint stub_yhat (future : list Timestamp) : list spec_float :=
  match future with
  | [] => []
  | [_] => [float_of_Z 420]
  | _ :: _ :: rest =>
      float_of_Z 420 :: S754_finite true 7881299347898368 (-51) :: stub_yhat rest
  end.

#[export] Instance runtime : Runtime := {|
  datetime := Z;
  isoformat := fun _ => "2024-01-01T00:00:00";
  int_of_str := stub_int_of_str;
  py_float := stub_float;
  to_datetime := stub_to_datetime;
  sort_values := sort_stable;
  Model := list Row;
  fit := fun df => inr df;
  make_future_dataframe := stub_future;
  model_predict := fun _ future => inr (stub_yhat future)
|}.

(** The same library with a [predict] that fails after a good fit. *)
Definition failing_predict : Runtime := {|
  datetime := Z;
  isoformat := fun _ => "2024-01-01T00:00:00";
  int_of_str := stub_int_of_str;
  py_float := stub_float;
  to_datetime := stub_to_datetime;
  sort_values := sort_stable;
  Model := list Row;
  fit := fun df => inr df;
  make_future_dataframe := stub_future;
  model_predict := fun _ _ => inl (OtherError "RuntimeError")
|}.



Definition feature (ts : string) (value : Z) : json :=
  JObj [("ts", JStr ts); ("value", JInt value)].

(** The request of the contract's example: horizon 120 s, step 60 s, two
    points one hour apart. *)
Definition request_items (horizon step : Z) : list (string * json) :=
  [("horizonSeconds", JInt horizon);
   ("stepSeconds", JInt step);
   ("features", JArr [feature "2024-01-01T00:00:00Z" 10;
                      feature "2024-01-01T01:00:00Z" 12])].

Definition request (horizon step : Z) : json := JObj (request_items horizon step).

(** The frame built from the features of [request]. *)
Definition request_frame : list Row :=
  [ {| ds := Ts true 1704067200000000000; y := float_of_Z 10 |};
    {| ds := Ts true 1704070800000000000; y := float_of_Z 12 |} ].

End Stub.

(** ** The default sort of pandas, as numpy runs it *)

(** [kind='quicksort'] of [argsort]: an introsort that partitions around the
    median of three, finishes short parts by insertion sort and falls back
    to heap sort past a depth limit. *)
Module Numpy.

(** [tosort] is the array of row numbers being permuted and [v] the column
    of keys; positions [pl .. pr] bound the part at hand. *)

Definition SMALL_QUICKSORT : nat := 16.

(** [a[i]] and [a[i] = x] *)
Definition get (a : list nat) (i : nat) : nat := nth i a 0%nat.

Fixpoint put (a : list nat) (i : nat) (x : nat) : list nat :=
  match a, i with
  | [], _ => []
  | _ :: t, O => x :: t
  | h :: t, S i' => h :: put t i' x
  end.

Definition swap (a : list nat) (i j : nat) : list nat :=
  put (put a i (get a j)) j (get a i).

(** [v[k]], and [v[a[i]]] *)
Definition key (v : list Z) (k : nat) : Z := nth k v 0.

Definition at_ (v : list Z) (a : list nat) (i : nat) : Z := key v (get a i).

(** [do ++pi while v[*pi] < vp] *)
Fixpoint scan_up (fuel : nat) (v : list Z) (a : list nat) (vp : Z) (pi : nat) : nat :=
  match fuel with
  | O => S pi
  | S f => if at_ v a (S pi) <? vp then scan_up f v a vp (S pi) else S pi
  end.

(** [do --pj while vp < v[*pj]] *)
Fixpoint scan_down (fuel : nat) (v : list Z) (a : list nat) (vp : Z) (pj : nat) : nat :=
  match fuel with
  | O => (pj - 1)%nat
  | S f => if vp <? at_ v a (pj - 1) then scan_down f v a vp (pj - 1) else (pj - 1)%nat
  end.

(** The two scans and the swap, until the scans meet. *)
Fixpoint partition_loop (fuel : nat) (v : list Z) (a : list nat) (vp : Z)
    (pi pj : nat) : list nat * nat :=
  match fuel with
  | O => (a, pi)
  | S f =>
      let pi' := scan_up (List.length a) v a vp pi in
      let pj' := scan_down (List.length a) v a vp pj in
      if (pj' <=? pi')%nat then (a, pi')
      else partition_loop f v (swap a pi' pj') vp pi' pj'
  end.

(** Median of three to [pm], pivot parked at [pr - 1], partition, pivot
    back to where the scans met. *)
Definition partition (v : list Z) (a : list nat) (pl pr : nat) : list nat * nat :=
  let pm := (pl + (pr - pl) / 2)%nat in
  let a := if at_ v a pm <? at_ v a pl then swap a pm pl else a in
  let a := if at_ v a pr <? at_ v a pm then swap a pr pm else a in
  let a := if at_ v a pm <? at_ v a pl then swap a pm pl else a in
  let vp := at_ v a pm in
  let a := swap a pm (pr - 1) in
  let '(a, pi) := partition_loop (List.length a) v a vp pl (pr - 1) in
  (swap a pi (pr - 1), pi).

(** [while pj > pl and vp < v[*pk]: *pj-- = *pk--] *)
Fixpoint shift (fuel : nat) (v : list Z) (a : list nat) (pl : nat) (vp : Z)
    (pj : nat) : list nat * nat :=
  match fuel with
  | O => (a, pj)
  | S f =>
      if (pl <? pj)%nat && (vp <? at_ v a (pj - 1)) then
        shift f v (put a pj (get a (pj - 1))) pl vp (pj - 1)
      else (a, pj)
  end.

Fixpoint insertion_from (count : nat) (v : list Z) (a : list nat) (pl pi : nat)
  : list nat :=
  match count with
  | O => a
  | S c =>
      let vi := get a pi in
      let '(a', pj) := shift (List.length a) v a pl (key v vi) pi in
      insertion_from c v (put a' pj vi) pl (S pi)
  end.

(** Insertion sort of positions [pl .. pr]. *)
Definition insertion (v : list Z) (a : list nat) (pl pr : nat) : list nat :=
  insertion_from (pr - pl) v a pl (S pl).

(** Heap sort of [n] positions from [pl], with its one-based indexing. *)
Definition hget (a : list nat) (pl k : nat) : nat := get a (pl + k - 1).
Definition hput (a : list nat) (pl k x : nat) : list nat := put a (pl + k - 1) x.

Fixpoint sift (fuel : nat) (v : list Z) (a : list nat) (pl n tmp i j : nat)
  : list nat :=
  match fuel with
  | O => hput a pl i tmp
  | S f =>
      if (j <=? n)%nat then
        let j := if (j <? n)%nat && (key v (hget a pl j) <? key v (hget a pl (j + 1)))
                 then (j + 1)%nat else j in
        if key v tmp <? key v (hget a pl j) then
          sift f v (hput a pl i (hget a pl j)) pl n tmp j (j + j)
        else hput a pl i tmp
      else hput a pl i tmp
  end.

Fixpoint heapify (l : nat) (v : list Z) (a : list nat) (pl n : nat) : list nat :=
  match l with
  | O => a
  | S l' => heapify l' v (sift n v a pl n (hget a pl l) l (l + l)) pl n
  end.

Fixpoint extract (n : nat) (v : list Z) (a : list nat) (pl : nat) : list nat :=
  match n with
  | O => a
  | S n' =>
      match n' with
      | O => a
      | S _ =>
          let tmp := hget a pl n in
          let a := hput a pl n (hget a pl 1) in
          extract n' v (sift n v a pl n' tmp 1 2) pl
      end
  end.

Definition aheapsort (v : list Z) (a : list nat) (pl n : nat) : list nat :=
  extract n v (heapify (n / 2) v a pl n) pl.

(** The outer loop with its stack of postponed parts: a part taken from
    the stack past the depth limit is heap sorted; a part of more than 17
    positions is partitioned, the larger side postponed; a smaller part is
    insertion sorted. *)
Fixpoint aquicksort_loop (fuel : nat) (v : list Z) (a : list nat) (pl pr : nat)
    (cdepth : Z) (popped : bool) (stack : list (nat * nat * Z)) : list nat :=
  match fuel with
  | O => a
  | S f =>
      let pop a :=
        match stack with
        | [] => a
        | (pl', pr', d) :: rest => aquicksort_loop f v a pl' pr' d true rest
        end in
      if popped && (cdepth <? 0) then pop (aheapsort v a pl (pr - pl + 1))
      else if (SMALL_QUICKSORT <? pr - pl)%nat then
        let '(a', pi) := partition v a pl pr in
        let cdepth' := cdepth - 1 in
        if (pi - pl <? pr - pi)%nat then
          aquicksort_loop f v a' pl (pi - 1) cdepth' false ((S pi, pr, cdepth') :: stack)
        else
          aquicksort_loop f v a' (S pi) pr cdepth' false ((pl, (pi - 1)%nat, cdepth') :: stack)
      else pop (insertion v a pl pr)
  end.

(** [v.argsort(kind='quicksort')] *)
Definition argsort (v : list Z) : list nat :=
  let n := List.length v in
  aquicksort_loop (2 * n + 2) v (seq 0 n) 0 (n - 1) (2 * Z.log2 (Z.of_nat n)) true [].


Definition isna (t : Timestamp) : bool :=
  match t with
  | NaT => true
  | Ts _ _ => false
  end.

Definition ns_of (t : Timestamp) : Z :=
  match t with
  | Ts _ ns => ns
  | NaT => 0
  end.

Definition take (rows : list Row) (indexer : list nat) : list Row :=
  flat_map (fun i => match nth_error rows i with Some r => [r] | None => [] end)
           indexer.

(** [df.sort_values(column)] for the [ds] column: the rows that are not [NaT]
    in the order of their keys' [argsort], then the [NaT] rows. *)
Definition df_sort_values (column : string) (rows : list Row)
  : result (list Row) :=
  if negb (String.eqb column "ds") then KeyError
  else if mixed_tz rows then TypeError
  else
    let non_nans := filter (fun r => negb (isna (ds r))) rows in
    let nans := filter (fun r => isna (ds r)) rows in
    inr (take non_nans (argsort (map (fun r => ns_of (ds r)) non_nans)) ++ nans)%list.

(** The test double of [Stub] with this sort. *)
Definition runtime : Runtime := {|
  datetime := Z;
  isoformat := fun _ => "2024-01-01T00:00:00";
  int_of_str := Stub.stub_int_of_str;
  py_float := Stub.stub_float;
  to_datetime := Stub.stub_to_datetime;
  sort_values := df_sort_values;
  Model := list Row;
  fit := fun df => inr df;
  make_future_dataframe := Stub.stub_future;
  model_predict := fun _ future => inr (Stub.stub_yhat future)
|}.


End Numpy.

(** * Properties *)

(** The term a handler's outcome is waiting on: the innermost scrutinee at
    the head of [t]. *)
Ltac scrutinee t :=
  lazymatch t with
  | match ?x with _ => _ end => scrutinee x
  | _ => t
  end.

(** One step through a hypothesis [H : handler = outcome]: case analysis on
    what the handler evaluates next. *)
Ltac flow_step H :=
  lazymatch type of H with
  | ?lhs = _ =>
      let x := scrutinee lhs in
      lazymatch x with
      | lhs => fail
      | _ => destruct x eqn:?
      end
  end; cbv beta iota in H; try discriminate H.

Ltac flow_inv H := repeat (flow_step H).

Section Facts.
Context `{R : Runtime}.

(** *** Validation *)

Lemma check_required_Return data fields r :
  check_required data fields = Return r -> exists msg, r = error_response msg 400.
Proof.
  induction fields as [|field rest IH]; simpl; [discriminate|].
  unfold fbind, call.
  destruct (py_in field data) as [e|[|]]; try discriminate; auto.
  intros H; inversion H; eauto.
Qed.

Lemma check_features_Return items : forall i r,
  check_features i items = Return r -> exists msg, r = error_response msg 400.
Proof.
  induction items as [|f rest IH]; simpl; intros i r; [discriminate|].
  unfold fbind, call.
  destruct (py_in "ts" f) as [e|[|]]; simpl; try discriminate;
    [|intros H; inversion H; eauto].
  destruct (py_in "value" f) as [e|[|]]; simpl; try discriminate;
    [apply IH|intros H; inversion H; eauto].
Qed.

(** Validation only ever returns a 400 that carries one message. *)
Lemma validate_Return data r :
  validate data = Return r -> exists msg, r = error_response msg 400.
Proof.
  unfold validate, fbind, call. intros H.
  flow_inv H;
    try (inversion H; subst; eexists; reflexivity);
    inversion H; subst;
    eauto using check_required_Return, check_features_Return.
Qed.

(** What a request that passed validation satisfies. *)
Lemma validate_Next data h s features :
  validate data = Next (h, s, features) ->
  0 < h /\ 0 < s /\ s <= h /\ py_not features = false.
Proof.
  unfold validate, fbind, call. intros H.
  flow_inv H. inversion H; subst.
  repeat split; try lia; assumption.
Qed.

(** *** The handler around validation and orchestration *)

Lemma predict_rejects now data forecaster r :
  validate data = Return r -> predict now (inr data) forecaster = (r, forecaster).
Proof. intros H. unfold predict, predict_try. rewrite H. reflexivity. Qed.

Lemma predict_runs now data forecaster h s features :
  validate data = Next (h, s, features) ->
  predict now (inr data) forecaster
  = match train_and_predict now features h s forecaster with
    | (inr predictions, forecaster') => (ok_response predictions, forecaster')
    | (inl (ValueError msg), forecaster') => (error_response msg 400, forecaster')
    | (inl (OtherError _), forecaster') =>
        (error_response "internal server error" 500, forecaster')
    end.
Proof.
  intros H. unfold predict, predict_try. rewrite H.
  destruct (train_and_predict now features h s forecaster) as [[[msg|cls]|vs] st'];
    reflexivity.
Qed.

Lemma train_and_predict_fitted now features h s forecaster df m :
  py_not features = false ->
  training_frame features = inr df ->
  fit df = inr m ->
  train_and_predict now features h s forecaster
  = (forecast m h s, {| model := Some m; last_trained := Some now |}).
Proof.
  intros Hnot Hdf Hfit. unfold train_and_predict.
  rewrite Hnot, Hdf, Hfit. reflexivity.
Qed.

(** *** Post-processing of the forecast *)

Lemma max0_nonneg x : nonneg (max0 x).
Proof.
  unfold nonneg, max0, SFltb, SFleb.
  destruct (SFcompare SFzero x) as [[]|] eqn:Hc; try reflexivity.
  rewrite Hc. reflexivity.
Qed.

Lemma Forall_slice_to {A} (P : A -> Prop) l n :
  Forall P l -> Forall P (slice_to l n).
Proof.
  intros H. unfold slice_to.
  assert (Hfirst : forall k, Forall P (firstn k l)).
  { intros k. revert l H. induction k as [|k IH]; intros [|a l] H; simpl;
      try constructor; inversion H; subst; auto. }
  destruct (0 <=? n); apply Hfirst.
Qed.

Lemma slice_to_length {A} (l : list A) n :
  0 <= n <= Z.of_nat (List.length l) ->
  Z.of_nat (List.length (slice_to l n)) = n.
Proof.
  intros Hn. unfold slice_to.
  destruct (0 <=? n) eqn:H0; [|lia].
  rewrite firstn_length_le; lia.
Qed.

Lemma slice_to_at_most {A} (l : list A) n :
  0 <= n -> Z.of_nat (List.length (slice_to l n)) <= n.
Proof.
  intros Hn. unfold slice_to.
  destruct (0 <=? n) eqn:H0; [|lia].
  rewrite length_firstn. lia.
Qed.

Lemma forecast_inv m h s values :
  forecast m h s = inr values ->
  exists future yhat,
    s <> 0 /\
    make_future_dataframe m (h / s) s = inr future /\
    model_predict m future = inr yhat /\
    values = slice_to (map max0 yhat) (h / s).
Proof.
  unfold forecast, rbind, floordiv. intros H.
  destruct (s =? 0) eqn:Hs; [discriminate|].
  destruct (make_future_dataframe m (h / s) s) as [e|future] eqn:Hf; [discriminate|].
  destruct (model_predict m future) as [e|yhat] eqn:Hp; [discriminate|].
  inversion H; subst. exists future, yhat. repeat split; auto; lia.
Qed.

Lemma forecast_values m h s future yhat :
  s <> 0 ->
  make_future_dataframe m (h / s) s = inr future ->
  model_predict m future = inr yhat ->
  forecast m h s = inr (slice_to (map max0 yhat) (h / s)).
Proof.
  intros Hs Hf Hp. unfold forecast, rbind, floordiv.
  destruct (s =? 0) eqn:E; [lia|]. rewrite Hf, Hp. reflexivity.
Qed.


(** Every response with status 200 is the forecast of a validated request. *)
Lemma predict_200 now get_json forecaster :
  status (fst (predict now get_json forecaster)) = 200 ->
  exists data h s features m,
    get_json = inr data /\
    validate data = Next (h, s, features) /\
    fitted_model get_json = Some m /\
    exists values,
      forecast m h s = inr values /\
      predict now get_json forecaster
      = (ok_response values, {| model := Some m; last_trained := Some now |}).
Proof.
  destruct get_json as [e|data].
  { destruct e; simpl; discriminate. }
  destruct (validate data) as [[[h s] features]|r|e] eqn:Hv.
  - destruct (validate_Next _ _ _ _ Hv) as (Hh & Hs & Hsh & Hnot).
    rewrite (predict_runs _ _ _ _ _ _ Hv).
    unfold fitted_model. rewrite Hv, Hnot.
    unfold train_and_predict. rewrite Hnot.
    destruct (training_frame features) as [[msg|cls]|df]; try (simpl; discriminate).
    destruct (fit df) as [[msg|cls]|m]; try (simpl; discriminate).
    destruct (forecast m h s) as [[msg|cls]|values] eqn:Hfc; try (simpl; discriminate).
    intros _. exists data, h, s, features, m. repeat split; auto.
    exists values. auto.
  - rewrite (predict_rejects _ _ _ _ Hv). simpl.
    destruct (validate_Return _ _ Hv) as (msg & ->). discriminate.
  - unfold predict, predict_try. rewrite Hv. destruct e; simpl; discriminate.
Qed.

End Facts.

(** ** Length and sign of the returned forecast *)

Section Forecast.
Context `{R : Runtime}.


(** C2.  A 200 response carries the predictions the model made for the
    future frame, each passed through [max(0, .)] and cut to
    [horizonSeconds // stepSeconds]: the value at a position is the raw
    prediction at that position when that is above zero and zero otherwise
    (negative numbers, zeros, NaN), so every value is [>= 0] whatever the
    model produced. *)
Theorem values_nonnegative now get_json forecaster response forecaster' :
  predict now get_json forecaster = (response, forecaster') ->
  status response = 200 ->
  exists data h s features m future yhat,
    get_json = inr data /\
    validate data = Next (h, s, features) /\
    fitted_model get_json = Some m /\
    make_future_dataframe m (h / s) s = inr future /\
    model_predict m future = inr yhat /\
    body response
    = JObj [("metric", JStr "prophet_forecast");
            ("values", JArr (map JFloat (slice_to (map max0 yhat) (h / s))))]
    /\ Forall nonneg (slice_to (map max0 yhat) (h / s))
    /\ (forall i v,
          nth_error (slice_to (map max0 yhat) (h / s)) i = Some v ->
          exists x,
            nth_error yhat i = Some x /\
            (SFltb SFzero x = true -> v = x) /\
            (SFltb SFzero x = false -> v = SFzero))
    /\ forall x, nonneg (max0 x).
Proof.
  intros Hp H200.
  assert (H : status (fst (predict now get_json forecaster)) = 200)
    by (rewrite Hp; exact H200).
  destruct (predict_200 _ _ _ H)
    as (data & h & s & features & m & Hd & Hv & Hm & values & Hfc & Hresp).
  destruct (forecast_inv _ _ _ _ Hfc) as (future & yhat & _ & Hf & Hy & Hvals).
  destruct (validate_Next _ _ _ _ Hv) as (Hh & Hs & Hsh & _).
  assert (Hq : 0 <= h / s) by (apply Z.div_pos; lia).
  rewrite Hp in Hresp. inversion Hresp; subst response forecaster' values.
  exists data, h, s, features, m, future, yhat.
  repeat split; auto.
  - apply Forall_slice_to. apply Forall_forall. intros v Hin.
    apply in_map_iff in Hin. destruct Hin as (x & <- & _). apply max0_nonneg.
  - intros i v Hnth. unfold slice_to in Hnth.
    destruct (0 <=? h / s) eqn:E; [|lia].
    rewrite nth_error_firstn in Hnth.
    destruct (i <? Z.to_nat (h / s))%nat; [|discriminate].
    rewrite nth_error_map in Hnth.
    destruct (nth_error yhat i) as [x|]; [|discriminate].
    inversion Hnth. exists x. unfold max0.
    split; [reflexivity|]. split; intros ->; reflexivity.
  - exact max0_nonneg.
Qed.


(** C7.  An exception raised by [train_and_predict] reaches the client as a
    400 carrying the exception's message when it is a [ValueError], and as
    the 500 "internal server error" -- nothing of the exception in the body
    -- when it is of any other class. *)
Theorem orchestration_errors now data forecaster h s features e forecaster' :
  validate data = Next (h, s, features) ->
  train_and_predict now features h s forecaster = (inl e, forecaster') ->
  (forall msg, e = ValueError msg ->
     predict now (inr data) forecaster
     = ({| status := 400; body := JObj [("error", JStr msg)] |}, forecaster'))
  /\
  (forall cls, e = OtherError cls ->
     predict now (inr data) forecaster
     = ({| status := 500; body := JObj [("error", JStr "internal server error")] |},
        forecaster')).
Proof.
  intros Hv Ht. rewrite (predict_runs _ _ _ _ _ _ Hv), Ht.
  split; intros x ->; reflexivity.
Qed.

End Forecast.

(** ** Order of the validation checks *)

Section Validation.
Context `{R : Runtime}.








(** C5, as the handler has it.  A body that is a non-empty object without
    [horizonSeconds] passes the body check and gets the 400 "missing required
    field: horizonSeconds", whichever other fields it lacks; the empty object
    is falsy and gets "request body is required". *)
Theorem missing_fields_of_object now forecaster :
  (forall kvs,
      kvs <> [] ->
      lookup "horizonSeconds" kvs = None ->
      body_present (JObj kvs) = Next tt /\
      predict now (inr (JObj kvs)) forecaster
      = ({| status := 400;
            body := JObj [("error", JStr "missing required field: horizonSeconds")] |},
         forecaster))
  /\
  predict now (inr (JObj [])) forecaster
  = ({| status := 400; body := JObj [("error", JStr "request body is required")] |},
     forecaster).
Proof.
  split; [|reflexivity].
  intros kvs Hne Hno. destruct kvs as [|kv kvs]; [contradiction|].
  split; [reflexivity|].
  apply predict_rejects.
  unfold validate, required_fields, check_required, fbind, call, py_in, has_key.
  cbn [py_not]. rewrite Hno. reflexivity.
Qed.

End Validation.

(** ** What a request leaves in the forecaster *)

Section Liveness.
Context `{R : Runtime}.

(** The forecaster after a [/predict] request: the freshly fitted model and
    the time of the fit when the fit succeeded, the forecaster as it was
    otherwise. *)
Lemma predict_state now get_json forecaster :
  snd (predict now get_json forecaster)
  = match fitted_model get_json with
    | Some m => {| model := Some m; last_trained := Some now |}
    | None => forecaster
    end.
Proof.
  destruct get_json as [e|data]; [destruct e; reflexivity|].
  unfold fitted_model.
  destruct (validate data) as [[[h s] features]|r|e] eqn:Hv.
  - rewrite (predict_runs _ _ _ _ _ _ Hv). unfold train_and_predict.
    destruct (py_not features); [reflexivity|].
    destruct (training_frame features) as [[msg|cls]|df]; try reflexivity.
    destruct (fit df) as [[msg|cls]|m]; try reflexivity.
    destruct (forecast m h s) as [[msg|cls]|values]; reflexivity.
  - rewrite (predict_rejects _ _ _ _ Hv). reflexivity.
  - unfold predict, predict_try. rewrite Hv. destruct e; reflexivity.
Qed.

(** The response never looks at the forecaster it starts from. *)
Lemma predict_response now get_json forecaster forecaster' :
  fst (predict now get_json forecaster) = fst (predict now get_json forecaster').
Proof.
  destruct get_json as [e|data]; [destruct e; reflexivity|].
  destruct (validate data) as [[[h s] features]|r|e] eqn:Hv.
  - rewrite !(predict_runs _ _ _ _ _ _ Hv). unfold train_and_predict.
    destruct (py_not features); [reflexivity|].
    destruct (training_frame features) as [[msg|cls]|df]; try reflexivity.
    destruct (fit df) as [[msg|cls]|m]; reflexivity.
  - rewrite !(predict_rejects _ _ _ _ Hv). reflexivity.
  - unfold predict, predict_try. rewrite Hv. destruct e; reflexivity.
Qed.

Lemma serve_state rq forecaster :
  snd (serve rq forecaster)
  = match rq with
    | POST_predict now get_json =>
        match fitted_model get_json with
        | Some m => {| model := Some m; last_trained := Some now |}
        | None => forecaster
        end
    | GET_healthz => forecaster
    end.
Proof. destruct rq; [reflexivity|apply predict_state]. Qed.

Lemma serve_no_fit rq forecaster :
  fit_succeeds rq = false -> snd (serve rq forecaster) = forecaster.
Proof.
  rewrite serve_state. destruct rq as [|now get_json]; [reflexivity|].
  simpl. destruct (fitted_model get_json); [discriminate|reflexivity].
Qed.

Lemma run_last_trained requests : forall forecaster,
  last_trained (run requests forecaster) = None
  <-> last_trained forecaster = None
      /\ forall rq, In rq requests -> fit_succeeds rq = false.
Proof.
  induction requests as [|rq requests IH]; intros forecaster; simpl.
  - split; [intros H; split; [exact H|contradiction]|intros [H _]; exact H].
  - unfold run in *. simpl. rewrite IH, serve_state.
    destruct rq as [|now get_json]; simpl.
    + split; intros [H1 H2]; split; auto.
      intros rq [<-|Hin]; auto.
    + destruct (fitted_model get_json) as [m|] eqn:Hm; simpl.
      * split; [intros [H _]; discriminate|].
        intros [_ H]. specialize (H _ (or_introl eq_refl)).
        simpl in H. rewrite Hm in H. discriminate.
      * split; intros [H1 H2]; split; auto.
        intros rq [<-|Hin]; auto. simpl. rewrite Hm. reflexivity.
Qed.

Lemma reported_null forecaster :
  reported_last_trained forecaster = Some JNull <-> last_trained forecaster = None.
Proof.
  unfold reported_last_trained. simpl.
  destruct (last_trained forecaster); split; intros H; try discriminate; reflexivity.
Qed.

Lemma reported_value forecaster :
  reported_last_trained forecaster
  = Some match last_trained forecaster with
         | Some t => JStr (isoformat t)
         | None => JNull
         end.
Proof. reflexivity. Qed.

(** C6, as the forecaster has it.  [last_trained] is set on line 52, right
    after the fit returns and before the number of periods is computed, the
    future frame built and the prediction made: once the fit has succeeded
    the request leaves [last_trained] at the current time, also when a later
    step raises and the client gets an error; a request that is rejected by
    validation, or fails before the fit or in it, leaves the forecaster as it
    was. *)
Theorem last_trained_set_by_fit now data forecaster :
  (forall h s features df m,
      validate data = Next (h, s, features) ->
      training_frame features = inr df ->
      fit df = inr m ->
      snd (predict now (inr data) forecaster)
      = {| model := Some m; last_trained := Some now |}
      /\ forall e,
           forecast m h s = inl e ->
           400 <= status (fst (predict now (inr data) forecaster))
           /\ last_trained (snd (predict now (inr data) forecaster)) = Some now)
  /\
  (forall h s features df e,
      validate data = Next (h, s, features) ->
      training_frame features = inr df ->
      fit df = inl e ->
      snd (predict now (inr data) forecaster) = forecaster)
  /\
  (forall h s features e,
      validate data = Next (h, s, features) ->
      training_frame features = inl e ->
      snd (predict now (inr data) forecaster) = forecaster)
  /\
  (forall r, validate data = Return r ->
             snd (predict now (inr data) forecaster) = forecaster)
  /\
  (forall e, validate data = Raise e ->
             snd (predict now (inr data) forecaster) = forecaster).
Proof.
  rewrite predict_state. unfold fitted_model.
  split; [|split; [|split; [|split]]].
  - intros h s features df m Hv Hdf Hfit.
    destruct (validate_Next _ _ _ _ Hv) as (_ & _ & _ & Hnot).
    rewrite Hv, Hnot, Hdf, Hfit. split; [reflexivity|].
    intros e Hraise. split; [|reflexivity].
    rewrite (predict_runs _ _ _ _ _ _ Hv).
    rewrite (train_and_predict_fitted _ _ _ _ _ _ _ Hnot Hdf Hfit), Hraise.
    destruct e; simpl; lia.
  - intros h s features df e Hv Hdf Hfit.
    rewrite Hv, Hdf, Hfit. destruct (py_not features); reflexivity.
  - intros h s features e Hv Hdf.
    rewrite Hv, Hdf. destruct (py_not features); reflexivity.
  - intros r ->. reflexivity.
  - intros e ->. reflexivity.
Qed.

(** C9, as the forecaster has it.  [last_trained] is empty in a fresh
    process and, after any sequence of requests, non-empty exactly when the
    fit of one of them has succeeded; [/healthz] reports [null] in the first
    case and the ISO timestamp in the second, in particular after a
    [/predict] call that returned 200; a request whose fit did not succeed
    ([/healthz], a rejected or failed [/predict]) leaves the forecaster as it
    was. *)
Theorem last_trained_tracks_fits :
  last_trained init = None
  /\ reported_last_trained init = Some JNull
  /\ (forall requests,
        (last_trained (run requests init) = None
         <-> forall rq, In rq requests -> fit_succeeds rq = false)
        /\ (reported_last_trained (run requests init) = Some JNull
            <-> forall rq, In rq requests -> fit_succeeds rq = false)
        /\ ((exists rq, In rq requests /\ fit_succeeds rq = true)
            -> exists t, last_trained (run requests init) = Some t
                         /\ reported_last_trained (run requests init)
                            = Some (JStr (isoformat t))))
  /\ (forall rq forecaster,
        fit_succeeds rq = false -> snd (serve rq forecaster) = forecaster)
  /\ (forall now get_json forecaster,
        status (fst (predict now get_json forecaster)) = 200 ->
        fit_succeeds (POST_predict now get_json) = true).
Proof.
  split; [reflexivity|]. split; [reflexivity|]. split; [|split].
  - intros requests.
    assert (Hrun : last_trained (run requests init) = None
                   <-> forall rq, In rq requests -> fit_succeeds rq = false).
    { rewrite run_last_trained. simpl. tauto. }
    split; [exact Hrun|]. split; [rewrite reported_null; exact Hrun|].
    intros (rq & Hin & Hfit).
    destruct (last_trained (run requests init)) as [t|] eqn:Ht.
    + exists t. split; [reflexivity|]. rewrite reported_value, Ht. reflexivity.
    + rewrite (proj1 Hrun eq_refl _ Hin) in Hfit. discriminate.
  - exact serve_no_fit.
  - intros now get_json forecaster H200.
    destruct (predict_200 _ _ _ H200) as (data & h & s & features & m & _ & _ & Hm & _).
    simpl. rewrite Hm. reflexivity.
Qed.

Lemma run_no_fit requests : forall forecaster,
  (forall rq, In rq requests -> fit_succeeds rq = false) ->
  run requests forecaster = forecaster.
Proof.
  induction requests as [|rq requests IH]; intros forecaster Hnone; [reflexivity|].
  unfold run in *. simpl.
  rewrite (serve_no_fit rq forecaster) by (apply Hnone; left; reflexivity).
  apply IH. intros rq' Hin. apply Hnone. right. exact Hin.
Qed.

(** C10, as the forecaster has it.  A request whose fit succeeds stores the
    fitted model in the module-level forecaster, next to [last_trained], and
    there it stays through every later request until a fit replaces it: a
    request changes nothing else, and requests without a successful fit
    change nothing at all.  No request reads the stored model: the response
    is the same whatever the forecaster held before. *)
Theorem model_stored_never_reused now get_json :
  (forall forecaster,
      snd (predict now get_json forecaster)
      = match fitted_model get_json with
        | Some m => {| model := Some m; last_trained := Some now |}
        | None => forecaster
        end)
  /\
  (forall m later forecaster,
      fitted_model get_json = Some m ->
      (forall rq, In rq later -> fit_succeeds rq = false) ->
      model (run (POST_predict now get_json :: later) forecaster) = Some m)
  /\
  (forall forecaster forecaster',
      fst (predict now get_json forecaster) = fst (predict now get_json forecaster')).
Proof.
  split; [apply predict_state|]. split; [|apply predict_response].
  intros m later forecaster Hm Hnone.
  change (run (POST_predict now get_json :: later) forecaster)
    with (run later (snd (predict now get_json forecaster))).
  rewrite (run_no_fit later _ Hnone), predict_state, Hm. reflexivity.
Qed.

End Liveness.

(** ** The training series *)

Section Ordering.












End Ordering.

Section Training.
Context `{R : Runtime}.



End Training.

(** ** The stable test double meets the promise of the sort *)







(** ** The properties at concrete requests *)



(** The stub model forecasts 420.0 and -3.5: the response carries 420.0 and
    0.0. *)
Lemma values_nonnegative_at_120_60 :
  model_predict (Runtime := Stub.runtime) Stub.request_frame
    [Ts true 1704070860000000000; Ts true 1704070920000000000]
  = inr [Stub.float_of_Z 420; S754_finite true 7881299347898368 (-51)]
  /\ body (fst (predict (R := Stub.runtime) 5 (inr (Stub.request 120 60)) init))
     = JObj [("metric", JStr "prophet_forecast");
             ("values", JArr [JFloat (Stub.float_of_Z 420); JFloat SFzero])]
  /\ Forall nonneg [Stub.float_of_Z 420; SFzero].
Proof.
  destruct (values_nonnegative (R := Stub.runtime)
              5 (inr (Stub.request 120 60)) init _ _ eq_refl eq_refl)
    as (data & h & s & features & m & future & yhat
        & Hd & Hv & Hm & Hf & Hy & Hbody & Hall & _).
  inversion Hd; subst data. vm_compute in Hv. inversion Hv; subst h s features.
  vm_compute in Hm. inversion Hm; subst m.
  vm_compute in Hf. inversion Hf; subst future.
  vm_compute in Hy. inversion Hy; subst yhat.
  split; [reflexivity|]. split; [exact Hbody|exact Hall].
Defined.



(** The empty object is answered as a missing body. *)
Lemma empty_object_is_missing_body :
  predict (R := Stub.runtime) 5 (inr (JObj [])) init
  = (error_response "request body is required" 400, init)
  /\ validate (R := Stub.runtime) (JObj [])
     <> Return (error_response "missing required field: horizonSeconds" 400).
Proof. split; [reflexivity|discriminate]. Qed.

(** An object with only [now] lacks all three required fields. *)
Lemma missing_fields_of_object_at_now_only :
  predict (R := Stub.runtime) 5 (inr (JObj [("now", JStr "2024-01-01T02:00:00Z")])) init
  = (error_response "missing required field: horizonSeconds" 400, init).
Proof.
  destruct (missing_fields_of_object (R := Stub.runtime) 5 init) as [Hobj _].
  destruct (Hobj [("now", JStr "2024-01-01T02:00:00Z")]) as [_ Hp];
    [discriminate|reflexivity|exact Hp].
Defined.

(** Fit succeeds, predict raises: the client gets a 500 and [last_trained]
    has moved from empty to the time of the request. *)
Lemma last_trained_moves_when_predict_raises :
  exists df m,
    training_frame (R := Stub.failing_predict)
      (JArr [Stub.feature "2024-01-01T00:00:00Z" 10;
             Stub.feature "2024-01-01T01:00:00Z" 12]) = inr df
    /\ fit (Runtime := Stub.failing_predict) df = inr m
    /\ forecast (R := Stub.failing_predict) m 120 60 = inl (OtherError "RuntimeError")
    /\ fst (predict (R := Stub.failing_predict) 5 (inr (Stub.request 120 60)) init)
       = error_response "internal server error" 500
    /\ last_trained (init (R := Stub.failing_predict)) = None
    /\ last_trained
         (snd (predict (R := Stub.failing_predict) 5 (inr (Stub.request 120 60)) init))
       = Some 5.
Proof. eexists. eexists. repeat split; reflexivity. Qed.

Lemma last_trained_set_by_fit_at_failing_predict :
  last_trained
    (snd (predict (R := Stub.failing_predict) 5 (inr (Stub.request 120 60)) init))
  = Some 5.
Proof.
  destruct (last_trained_set_by_fit (R := Stub.failing_predict)
              5 (Stub.request 120 60) init)
    as (Hfit & _).
  destruct (Hfit 120 60 _ _ _ eq_refl eq_refl eq_refl) as [_ Hraise].
  destruct (Hraise (OtherError "RuntimeError") eq_refl) as [_ Hlast].
  exact Hlast.
Defined.

(** The same failure seen through the handler's [except] clauses. *)
Lemma orchestration_errors_at_failing_predict :
  predict (R := Stub.failing_predict) 5 (inr (Stub.request 120 60)) init
  = ({| status := 500; body := JObj [("error", JStr "internal server error")] |},
     @Build_ProphetForecaster Stub.failing_predict
       (Some Stub.request_frame) (Some 5)).
Proof.
  destruct (orchestration_errors (R := Stub.failing_predict)
              5 (Stub.request 120 60) init 120 60 _ _ _ eq_refl eq_refl)
    as [_ Hother].
  exact (Hother "RuntimeError" eq_refl).
Defined.

(** A timestamp pandas cannot parse raises a [ValueError]: a 400 with its
    message. *)
Example unparsable_timestamp_is_400 :
  fst (predict (R := Stub.runtime) 5
         (inr (JObj [("horizonSeconds", JInt 120); ("stepSeconds", JInt 60);
                     ("features", JArr [Stub.feature "yesterday" 10;
                                        Stub.feature "today" 12])])) init)
  = error_response "Unknown datetime string format, unable to parse: yesterday" 400.
Proof. reflexivity. Qed.



(** An invalid horizon and too few features: only the horizon is reported. *)
Example first_violation_wins_at_two_violations :
  predict (R := Stub.runtime) 5
    (inr (JObj [("horizonSeconds", JInt 0); ("stepSeconds", JInt 60);
                ("features", JArr [])])) init
  = (error_response "horizonSeconds must be > 0" 400, init).
Proof. reflexivity. Qed.

(** The only [/predict] call made has failed with a 500, and [/healthz]
    reports a timestamp. *)
Lemma healthz_reports_timestamp_after_failed_predict :
  status (fst (serve (R := Stub.failing_predict)
                 (@POST_predict Stub.failing_predict 5 (inr (Stub.request 120 60))) init)) = 500
  /\ reported_last_trained (R := Stub.failing_predict)
       (run [@POST_predict Stub.failing_predict 5 (inr (Stub.request 120 60))] init)
     = Some (JStr "2024-01-01T00:00:00").
Proof. split; reflexivity. Qed.

(** After one good request the forecaster holds the fitted model, and a
    later request that fails validation still finds it there. *)
Lemma fitted_model_outlives_its_request :
  model (init (R := Stub.runtime)) = None
  /\ model (snd (predict (R := Stub.runtime) 5 (inr (Stub.request 120 60)) init))
     = Some Stub.request_frame
  /\ model (run (R := Stub.runtime)
              [@POST_predict Stub.runtime 5 (inr (Stub.request 120 60));
               @POST_predict Stub.runtime 6 (inr JNull); GET_healthz] init)
     = Some Stub.request_frame.
Proof. repeat split; reflexivity. Qed.

(** * Further properties of the handlers *)

(** ** What validation accepts *)

Section Acceptance.
Context `{R : Runtime}.

Lemma getitem_inr data key v :
  getitem data key = inr v ->
  exists kvs, data = JObj kvs /\ lookup key kvs = Some v.
Proof.
  destruct data; try discriminate. unfold getitem.
  destruct (lookup key kvs) as [x|] eqn:Hl; [|discriminate].
  intros H. inversion H; subst. eauto.
Qed.

Lemma chars_length s : List.length (chars s) = String.length s.
Proof. induction s as [|c s IH]; simpl; congruence. Qed.

Lemma py_len_iter_length v n items :
  py_len v = inr n -> py_iter v = inr items -> n = Z.of_nat (List.length items).
Proof.
  destruct v; try discriminate; simpl; intros Hn Hi;
    inversion Hn; inversion Hi; subst.
  - rewrite chars_length. reflexivity.
  - reflexivity.
  - rewrite length_map. reflexivity.
Qed.

Lemma py_iter_len v items :
  py_iter v = inr items -> py_len v = inr (Z.of_nat (List.length items)).
Proof.
  destruct v; try discriminate; simpl; intros Hi; inversion Hi; subst.
  - rewrite chars_length. reflexivity.
  - reflexivity.
  - rewrite length_map. reflexivity.
Qed.

Lemma py_iter_truthy v items :
  py_iter v = inr items -> items <> [] -> py_not v = false.
Proof.
  destruct v; try discriminate; simpl; intros Hi Hne; inversion Hi; subst.
  - destruct s; [contradiction|reflexivity].
  - destruct items; [contradiction|reflexivity].
  - destruct kvs; [contradiction|reflexivity].
Qed.

Lemma check_features_Next items : forall i,
  check_features i items = Next tt <-> Forall has_ts_and_value items.
Proof.
  unfold has_ts_and_value.
  induction items as [|f rest IH]; intros i; simpl.
  - split; [constructor|reflexivity].
  - unfold fbind, call.
    destruct (py_in "ts" f) as [e|[|]] eqn:Hts; simpl;
      [split; [discriminate|intros H; inversion H; subst; intuition congruence]
      | |split; [discriminate|intros H; inversion H; subst; intuition congruence]].
    destruct (py_in "value" f) as [e|[|]] eqn:Hval; simpl;
      [split; [discriminate|intros H; inversion H; subst; intuition congruence]
      | |split; [discriminate|intros H; inversion H; subst; intuition congruence]].
    rewrite IH. split; [intros H; constructor; auto|].
    intros H; inversion H; assumption.
Qed.

Lemma validate_Next_well_formed data h s features :
  validate data = Next (h, s, features) -> well_formed data h s features.
Proof.
  unfold validate, fbind, call. intros H.
  destruct (py_not data) eqn:Hbody; [discriminate|].
  destruct (check_required data required_fields) as [[]|r|e] eqn:Hreq;
    try discriminate.
  destruct (getitem data "horizonSeconds") as [e|hv] eqn:Hh; [discriminate|].
  destruct (py_int hv) as [e|h'] eqn:Hhi; [discriminate|].
  destruct (getitem data "stepSeconds") as [e|sv] eqn:Hs; [discriminate|].
  destruct (py_int sv) as [e|s'] eqn:Hsi; [discriminate|].
  destruct (getitem data "features") as [e|fs] eqn:Hf; [discriminate|].
  cbv beta iota in H.
  destruct (h' <=? 0) eqn:E1; [discriminate|].
  destruct (s' <=? 0) eqn:E2; [discriminate|].
  destruct (s' >? h') eqn:E3; [discriminate|].
  destruct (py_not fs) eqn:Hnot; [discriminate|].
  destruct (py_len fs) as [e|n] eqn:Hlen; [discriminate|].
  cbv beta iota in H.
  destruct (n <? 2) eqn:E4; [discriminate|].
  destruct (py_iter fs) as [e|items] eqn:Hit; [discriminate|].
  cbv beta iota in H.
  destruct (check_features 0 items) as [[]|r|e] eqn:Hcf; try discriminate.
  inversion H; subst h' s' fs.
  destruct (getitem_inr _ _ _ Hh) as (kvs & -> & Hlh).
  destruct (getitem_inr _ _ _ Hs) as (kvs' & Hk & Hls). inversion Hk; subst kvs'.
  destruct (getitem_inr _ _ _ Hf) as (kvs' & Hk' & Hlf). inversion Hk'; subst kvs'.
  pose proof (py_len_iter_length _ _ _ Hlen Hit) as Hn.
  exists kvs, hv, sv, items. repeat split; auto; try lia.
  apply (check_features_Next items 0). exact Hcf.
Qed.

Lemma well_formed_validate data h s features :
  well_formed data h s features -> validate data = Next (h, s, features).
Proof.
  intros (kvs & hv & sv & items & -> & Hlh & Hhi & Hls & Hsi & Hlf
          & Hh & Hs & Hsh & Hit & Hlen & Hall).
  unfold validate, required_fields, check_required, fbind, call,
    py_in, has_key, getitem.
  destruct kvs as [|kv kvs]; [discriminate|].
  cbn [py_not]. rewrite Hlh, Hls, Hlf, Hhi, Hsi.
  destruct (h <=? 0) eqn:E1; [lia|].
  destruct (s <=? 0) eqn:E2; [lia|].
  destruct (s >? h) eqn:E3; [lia|].
  rewrite (py_iter_truthy _ _ Hit) by (destruct items; [simpl in Hlen; lia|discriminate]).
  rewrite (py_iter_len _ _ Hit).
  destruct (Z.of_nat (List.length items) <? 2) eqn:E4; [lia|].
  rewrite Hit.
  rewrite (proj2 (check_features_Next items 0) Hall). reflexivity.
Qed.

(** X1.  Validation lets a body through exactly when it is well formed: an
    object whose [horizonSeconds] and [stepSeconds] coerce to ints with
    [0 < stepSeconds <= horizonSeconds] and whose [features] holds at least
    two entries, each with [ts] and [value]; the values handed on are the
    coerced ints and the [features] member itself. *)
Theorem validate_accepts_well_formed data h s features :
  validate data = Next (h, s, features) <-> well_formed data h s features.
Proof.
  split; [apply validate_Next_well_formed|apply well_formed_validate].
Qed.

(** X2.  A body that is not a JSON object (null, a bool, a number, a string,
    an array) never passes validation: the response is not a 200 and the
    forecaster is left as it was. *)
Theorem non_object_body_never_fitted now data forecaster :
  is_object data = false ->
  (forall h s features, validate data <> Next (h, s, features))
  /\ status (fst (predict now (inr data) forecaster)) <> 200
  /\ snd (predict now (inr data) forecaster) = forecaster.
Proof.
  intros Hobj.
  assert (Hnever : forall h s features, validate data <> Next (h, s, features)).
  { intros h s features Hv.
    destruct (validate_Next_well_formed _ _ _ _ Hv) as (kvs & ? & ? & ? & -> & _).
    discriminate. }
  split; [exact Hnever|].
  destruct (validate data) as [[[h s] features]|r|e] eqn:Hv.
  - exfalso. exact (Hnever _ _ _ eq_refl).
  - rewrite (predict_rejects _ _ _ _ Hv). simpl.
    destruct (validate_Return _ _ Hv) as (msg & ->). split; [discriminate|reflexivity].
  - unfold predict, predict_try. rewrite Hv.
    destruct e; simpl; split; (discriminate || reflexivity).
Qed.

End Acceptance.

(** ** What validation answers *)

Section Rejection.
Context `{R : Runtime}.

(** The handler's answer when the [try] block raises. *)
Lemma predict_raises now data forecaster e :
  validate data = Raise e ->
  predict now (inr data) forecaster = (caught e, forecaster).
Proof.
  intros H. unfold predict, predict_try. rewrite H. destruct e; reflexivity.
Qed.

(** [validate] on an object that has the three required fields: the body
    and field checks are behind it. *)
Ltac enter_object Hh Hs Hf :=
  unfold validate, required_fields, check_required, fbind, call,
    py_in, has_key, getitem;
  match goal with
  | |- context [py_not (JObj ?kvs)] =>
      destruct kvs; [discriminate Hh|]; cbn [py_not]
  end;
  rewrite Hh, Hs, Hf.

(** X3.  Whatever the request, the response of [/predict] is one of three:
    the 200 with [metric] and [values], a 400 whose body is a single [error]
    message, or the 500 "internal server error". *)
Theorem predict_answers_200_400_or_500 now get_json forecaster :
  (exists values, fst (predict now get_json forecaster) = ok_response values)
  \/ (exists msg, fst (predict now get_json forecaster) = error_response msg 400)
  \/ fst (predict now get_json forecaster)
     = error_response "internal server error" 500.
Proof.
  destruct get_json as [[msg|cls]|data];
    [right; left; exists msg; reflexivity|right; right; reflexivity|].
  destruct (validate data) as [[[h s] features]|r|e] eqn:Hv.
  - rewrite (predict_runs _ _ _ _ _ _ Hv).
    destruct (train_and_predict now features h s forecaster)
      as [[[msg|cls]|values] forecaster']; simpl.
    + right; left. exists msg. reflexivity.
    + right; right. reflexivity.
    + left. exists values. reflexivity.
  - rewrite (predict_rejects _ _ _ _ Hv). simpl.
    destruct (validate_Return _ _ Hv) as (msg & ->).
    right; left. exists msg. reflexivity.
  - rewrite (predict_raises _ _ _ _ Hv). destruct e as [msg|cls]; simpl.
    + right; left. exists msg. reflexivity.
    + right; right. reflexivity.
Qed.



(** X5.  When [int()] fails on [horizonSeconds], or succeeds there and fails
    on [stepSeconds], the request ends in the [except] clauses: a
    [ValueError] (a string that is no int literal, a NaN) is a 400 with the
    message of [int()], anything else (null, a list, an object, an infinite
    float) the 500.  The step is coerced before the horizon's range is
    looked at. *)
Theorem coercion_failures now kvs hv sv features forecaster :
  lookup "horizonSeconds" kvs = Some hv ->
  lookup "stepSeconds" kvs = Some sv ->
  lookup "features" kvs = Some features ->
  (forall e, py_int hv = inl e ->
     predict now (inr (JObj kvs)) forecaster = (caught e, forecaster))
  /\
  (forall h e, py_int hv = inr h -> py_int sv = inl e ->
     predict now (inr (JObj kvs)) forecaster = (caught e, forecaster))
  /\
  (is_object hv = true \/ hv = JNull \/ (exists l, hv = JArr l) ->
     predict now (inr (JObj kvs)) forecaster
     = (error_response "internal server error" 500, forecaster)).
Proof.
  intros Hh Hs Hf.
  assert (Hfirst : forall e, py_int hv = inl e ->
            predict now (inr (JObj kvs)) forecaster = (caught e, forecaster)).
  { intros e He. apply predict_raises. enter_object Hh Hs Hf.
    rewrite He. reflexivity. }
  split; [exact Hfirst|]. split.
  - intros h e Hhi Hsi. apply predict_raises. enter_object Hh Hs Hf.
    rewrite Hhi, Hsi. reflexivity.
  - intros Hbad.
    apply (Hfirst (OtherError "TypeError")).
    destruct Hbad as [Hobj|[->|[l ->]]]; [destruct hv; try discriminate|..];
      reflexivity.
Qed.

(** X6.  With the fields present and coerced to [h] and [s]: [h <= 0] is
    answered "horizonSeconds must be > 0" whatever [s] is; [s <= 0] with a
    good horizon is answered "stepSeconds must be > 0"; any [s > h] with both
    positive is answered "stepSeconds cannot exceed horizonSeconds".  None
    of the three looks at [features], and the forecaster is not touched. *)
Theorem range_checks now kvs hv sv features h s forecaster :
  lookup "horizonSeconds" kvs = Some hv ->
  lookup "stepSeconds" kvs = Some sv ->
  lookup "features" kvs = Some features ->
  py_int hv = inr h ->
  py_int sv = inr s ->
  (h <= 0 ->
     predict now (inr (JObj kvs)) forecaster
     = (error_response "horizonSeconds must be > 0" 400, forecaster))
  /\
  (0 < h -> s <= 0 ->
     predict now (inr (JObj kvs)) forecaster
     = (error_response "stepSeconds must be > 0" 400, forecaster))
  /\
  (0 < h -> h < s ->
     predict now (inr (JObj kvs)) forecaster
     = (error_response "stepSeconds cannot exceed horizonSeconds" 400, forecaster)).
Proof.
  intros Hh Hs Hf Hhi Hsi.
  split; [|split]; intros; apply predict_rejects; enter_object Hh Hs Hf;
    rewrite Hhi, Hsi; cbv beta iota.
  - destruct (h <=? 0) eqn:E1; [reflexivity|lia].
  - destruct (h <=? 0) eqn:E1; [lia|].
    destruct (s <=? 0) eqn:E2; [reflexivity|lia].
  - destruct (h <=? 0) eqn:E1; [lia|].
    destruct (s <=? 0) eqn:E2; [lia|].
    destruct (s >? h) eqn:E3; [reflexivity|lia].
Qed.

(** X7.  With a good horizon and step: a falsy [features] (null, an empty
    list, an empty string, ...) or one with fewer than two entries is
    answered "features must contain at least 2 points for Prophet"; a truthy
    [features] that has no length (a number, [true]) ends in the 500. *)
Theorem feature_count_check now kvs hv sv features h s forecaster :
  lookup "horizonSeconds" kvs = Some hv ->
  lookup "stepSeconds" kvs = Some sv ->
  lookup "features" kvs = Some features ->
  py_int hv = inr h ->
  py_int sv = inr s ->
  0 < s <= h ->
  (py_not features = true \/ (exists n, py_len features = inr n /\ n < 2) ->
     predict now (inr (JObj kvs)) forecaster
     = (error_response "features must contain at least 2 points for Prophet" 400,
        forecaster))
  /\
  (py_not features = false -> (forall n, py_len features <> inr n) ->
     predict now (inr (JObj kvs)) forecaster
     = (error_response "internal server error" 500, forecaster)).
Proof.
  intros Hh Hs Hf Hhi Hsi Hrange.
  assert (E1 : (h <=? 0) = false) by lia.
  assert (E2 : (s <=? 0) = false) by lia.
  assert (E3 : (s >? h) = false) by lia.
  split.
  - intros Hfew. apply predict_rejects. enter_object Hh Hs Hf.
    rewrite Hhi, Hsi. cbv beta iota. rewrite E1, E2, E3.
    destruct (py_not features) eqn:Hnot; [reflexivity|].
    destruct Hfew as [Hfalsy|(n & Hlen & Hn)]; [discriminate|].
    rewrite Hlen. cbv beta iota.
    destruct (n <? 2) eqn:E4; [reflexivity|lia].
  - intros Hnot Hnolen.
    replace (error_response "internal server error" 500)
      with (caught (OtherError "TypeError")) by reflexivity.
    apply predict_raises. enter_object Hh Hs Hf.
    rewrite Hhi, Hsi. cbv beta iota. rewrite E1, E2, E3, Hnot.
    destruct features; try reflexivity; exfalso; eapply Hnolen; reflexivity.
Qed.

Lemma check_features_first_bad good bad rest : forall i,
  Forall has_ts_and_value good ->
  (py_in "ts" bad = inr false ->
   check_features i (good ++ bad :: rest)%list
   = Return (error_response
               ("feature[" ++ str_of_nat (i + List.length good)
                ++ "] missing required field: ts") 400))
  /\
  (py_in "ts" bad = inr true -> py_in "value" bad = inr false ->
   check_features i (good ++ bad :: rest)%list
   = Return (error_response
               ("feature[" ++ str_of_nat (i + List.length good)
                ++ "] missing required field: value") 400)).
Proof.
  induction good as [|f good IH]; intros i Hall; simpl; unfold fbind, call.
  - rewrite Nat.add_0_r. split.
    + intros ->. reflexivity.
    + intros -> ->. reflexivity.
  - inversion Hall as [|? ? [Hts Hval] Hgood]; subst.
    rewrite Hts, Hval. cbn [negb].
    rewrite Nat.add_succ_r. exact (IH (S i) Hgood).
Qed.

(** X8.  With a good horizon and step and at least two entries: the 400 for
    a malformed entry carries the index of the first entry that lacks [ts] or
    [value], and names [ts] when that entry lacks both. *)
Theorem first_malformed_entry_is_indexed
    now kvs hv sv features h s forecaster good bad rest :
  lookup "horizonSeconds" kvs = Some hv ->
  lookup "stepSeconds" kvs = Some sv ->
  lookup "features" kvs = Some features ->
  py_int hv = inr h ->
  py_int sv = inr s ->
  0 < s <= h ->
  py_iter features = inr (good ++ bad :: rest)%list ->
  (2 <= List.length (good ++ bad :: rest))%nat ->
  Forall has_ts_and_value good ->
  (py_in "ts" bad = inr false ->
   predict now (inr (JObj kvs)) forecaster
   = (error_response
        ("feature[" ++ str_of_nat (List.length good)
         ++ "] missing required field: ts") 400, forecaster))
  /\
  (py_in "ts" bad = inr true -> py_in "value" bad = inr false ->
   predict now (inr (JObj kvs)) forecaster
   = (error_response
        ("feature[" ++ str_of_nat (List.length good)
         ++ "] missing required field: value") 400, forecaster)).
Proof.
  intros Hh Hs Hf Hhi Hsi Hrange Hit Hlen Hgood.
  assert (E1 : (h <=? 0) = false) by lia.
  assert (E2 : (s <=? 0) = false) by lia.
  assert (E3 : (s >? h) = false) by lia.
  assert (Hnot : py_not features = false).
  { apply (py_iter_truthy _ _ Hit). destruct good; discriminate. }
  assert (E4 : (Z.of_nat (List.length (good ++ bad :: rest)) <? 2) = false) by lia.
  destruct (check_features_first_bad good bad rest 0 Hgood) as [Hts Hval].
  split; intros; apply predict_rejects; enter_object Hh Hs Hf;
    rewrite Hhi, Hsi; cbv beta iota; rewrite E1, E2, E3, Hnot;
    rewrite (py_iter_len _ _ Hit); cbv beta iota; rewrite E4, Hit;
    cbv beta iota.
  - rewrite Hts by assumption. reflexivity.
  - rewrite Hval by assumption. reflexivity.
Qed.

End Rejection.

(** ** What the forecaster is asked and what it returns *)

Section Orchestration.
Context `{R : Runtime}.

Lemma map_JFloat_inj l : forall l', map JFloat l = map JFloat l' -> l = l'.
Proof.
  induction l as [|x l IH]; intros [|x' l'] H; try discriminate; [reflexivity|].
  simpl in H. inversion H; subst. f_equal. apply IH. assumption.
Qed.

(** X9.  The values of a 200 are the leading [h // s] predictions of the
    model, in the model's order, each clamped: never more than [h // s] of
    them and never more than the model gave, also when the model returns
    more rows than it was asked for. *)
Theorem values_are_clamped_prefix now data forecaster h s features values forecaster' :
  validate data = Next (h, s, features) ->
  predict now (inr data) forecaster = (ok_response values, forecaster') ->
  exists m future yhat,
    fitted_model (inr data) = Some m /\
    make_future_dataframe m (h / s) s = inr future /\
    model_predict m future = inr yhat /\
    values = firstn (Z.to_nat (h / s)) (map max0 yhat) /\
    Z.of_nat (List.length values) <= h / s /\
    (List.length values <= List.length yhat)%nat /\
    forall i v, nth_error values i = Some v ->
                exists x, nth_error yhat i = Some x /\ v = max0 x.
Proof.
  intros Hv Hp.
  assert (H200 : status (fst (predict now (inr data) forecaster)) = 200)
    by (rewrite Hp; reflexivity).
  destruct (predict_200 _ _ _ H200)
    as (data' & h' & s' & features' & m & Hd & Hv' & Hm & values' & Hfc & Hp').
  inversion Hd; subst data'. rewrite Hv in Hv'. inversion Hv'; subst h' s' features'.
  rewrite Hp in Hp'. inversion Hp' as [[Hvals Hst]].
  apply map_JFloat_inj in Hvals. subst values'.
  destruct (forecast_inv _ _ _ _ Hfc) as (future & yhat & _ & Hf & Hy & Hvalues).
  destruct (validate_Next _ _ _ _ Hv) as (Hh & Hs & Hsh & _).
  assert (Hq : 0 <= h / s) by (apply Z.div_pos; lia).
  assert (Hslice : values = firstn (Z.to_nat (h / s)) (map max0 yhat)).
  { rewrite Hvalues. unfold slice_to. destruct (0 <=? h / s) eqn:E; [reflexivity|lia]. }
  exists m, future, yhat. repeat split; auto.
  - rewrite Hslice, length_firstn. lia.
  - rewrite Hslice, length_firstn, length_map. lia.
  - intros i v Hnth. rewrite Hslice, nth_error_firstn in Hnth.
    destruct (i <? Z.to_nat (h / s))%nat; [|discriminate].
    rewrite nth_error_map in Hnth.
    destruct (nth_error yhat i) as [x|]; [|discriminate].
    inversion Hnth. exists x. split; reflexivity.
Qed.

(** X10.  For a validated request the division on line 54 cannot fail and
    gives at least one period: Prophet is asked for [h // s >= 1] future
    rows at a step [s > 0], and when it answers with one prediction per row
    the response carries at least one value. *)
Theorem at_least_one_period data h s features m :
  validate data = Next (h, s, features) ->
  floordiv h s = inr (h / s)
  /\ 1 <= h / s
  /\ forecast m h s
     = (let? future_df := make_future_dataframe m (h / s) s in
        let? yhat := model_predict m future_df in
        inr (firstn (Z.to_nat (h / s)) (map max0 yhat)))
  /\ forall future yhat,
       make_future_dataframe m (h / s) s = inr future ->
       List.length future = Z.to_nat (h / s) ->
       model_predict m future = inr yhat ->
       List.length yhat = List.length future ->
       exists v rest, forecast m h s = inr (v :: rest).
Proof.
  intros Hv. destruct (validate_Next _ _ _ _ Hv) as (Hh & Hs & Hsh & _).
  assert (Hq : 1 <= h / s).
  { apply Z.div_le_lower_bound; lia. }
  assert (Hdiv : floordiv h s = inr (h / s)).
  { unfold floordiv. destruct (s =? 0) eqn:E; [lia|reflexivity]. }
  assert (Hslice : forall l : list spec_float,
             slice_to l (h / s) = firstn (Z.to_nat (h / s)) l).
  { intros l. unfold slice_to. destruct (0 <=? h / s) eqn:E; [reflexivity|lia]. }
  split; [exact Hdiv|]. split; [exact Hq|]. split.
  - unfold forecast. rewrite Hdiv. unfold rbind.
    destruct (make_future_dataframe m (h / s) s); [reflexivity|].
    destruct (model_predict m l); [reflexivity|]. rewrite Hslice. reflexivity.
  - intros future yhat Hf Hlen Hy Hlen'.
    assert (Hs0 : s <> 0) by lia.
    rewrite (forecast_values _ _ _ _ _ Hs0 Hf Hy), Hslice.
    destruct yhat as [|x yhat]; [simpl in Hlen'; lia|].
    destruct (Z.to_nat (h / s)) eqn:E; [lia|].
    simpl. eauto.
Qed.

Lemma build_rows_first_failure good bad rest e :
  Forall (fun f => exists r, row_of f = inr r) good ->
  row_of bad = inl e ->
  build_rows (good ++ bad :: rest) = inl e.
Proof.
  induction good as [|f good IH]; intros Hgood Hbad; simpl; unfold rbind.
  - rewrite Hbad. reflexivity.
  - inversion Hgood as [|? ? (r & Hr) Hgood']; subst.
    rewrite Hr, (IH Hgood' Hbad). reflexivity.
Qed.

Lemma frame_failure now data forecaster h s features e :
  validate data = Next (h, s, features) ->
  training_frame features = inl e ->
  fitted_model (inr data) = None
  /\ predict now (inr data) forecaster = (caught e, forecaster).
Proof.
  intros Hv Hdf. destruct (validate_Next _ _ _ _ Hv) as (_ & _ & _ & Hnot).
  split.
  - unfold fitted_model. rewrite Hv, Hnot, Hdf. reflexivity.
  - rewrite (predict_runs _ _ _ _ _ _ Hv). unfold train_and_predict.
    rewrite Hnot, Hdf. destruct e; reflexivity.
Qed.

(** X11.  When a feature cannot be turned into a row, the exception the
    client sees is the one of the first such feature in request order (a 400
    with its message for a [ValueError], the 500 otherwise), and within a
    feature the timestamp is converted before the value; [fit] is not
    called and the forecaster is left as it was. *)
Theorem first_failing_feature_is_reported
    now data forecaster h s features good bad rest e :
  validate data = Next (h, s, features) ->
  py_iter features = inr (good ++ bad :: rest)%list ->
  Forall (fun f => exists r, row_of f = inr r) good ->
  row_of bad = inl e ->
  predict now (inr data) forecaster = (caught e, forecaster)
  /\ fitted_model (inr data) = None
  /\ forall fkvs t e',
       bad = JObj fkvs -> lookup "ts" fkvs = Some t -> to_datetime t = inl e' ->
       e = e'.
Proof.
  intros Hv Hit Hgood Hbad.
  assert (Hdf : training_frame features = inl e).
  { unfold training_frame, rbind. rewrite Hit.
    rewrite (build_rows_first_failure _ _ _ _ Hgood Hbad). reflexivity. }
  destruct (frame_failure now data forecaster _ _ _ _ Hv Hdf) as [Hnone Hp].
  split; [exact Hp|]. split; [exact Hnone|].
  intros fkvs t e' -> Hts Hdt. unfold row_of, rbind, getitem in Hbad.
  rewrite Hts, Hdt in Hbad. inversion Hbad. reflexivity.
Qed.

Lemma row_of_non_object f : is_object f = false -> row_of f = TypeError.
Proof. destruct f; try discriminate; reflexivity. Qed.

Lemma build_rows_non_object items :
  Exists (fun f => is_object f = false) items ->
  exists e, build_rows items = inl e.
Proof.
  induction 1 as [f rest Hf|f rest Hex IH]; simpl; unfold rbind.
  - rewrite (row_of_non_object _ Hf). eexists. reflexivity.
  - destruct (row_of f) as [e|r]; [eauto|].
    destruct IH as (e & ->). eauto.
Qed.

(** X12.  A validated request one of whose feature entries is not an object
    (validation only asks whether "ts" and "value" occur in the entry, which
    a string or a list can satisfy) never reaches [fit]: the answer is an
    error and the forecaster is left as it was. *)
Theorem non_object_entry_never_fitted now data forecaster h s features items :
  validate data = Next (h, s, features) ->
  py_iter features = inr items ->
  Exists (fun f => is_object f = false) items ->
  fitted_model (inr data) = None
  /\ (exists e, predict now (inr data) forecaster = (caught e, forecaster))
  /\ status (fst (predict now (inr data) forecaster)) <> 200.
Proof.
  intros Hv Hit Hex.
  destruct (build_rows_non_object _ Hex) as (e & Hrows).
  assert (Hdf : training_frame features = inl e).
  { unfold training_frame, rbind. rewrite Hit, Hrows. reflexivity. }
  destruct (frame_failure now data forecaster _ _ _ _ Hv Hdf) as [Hnone Hp].
  split; [exact Hnone|]. split; [eauto|].
  rewrite Hp. destruct e; simpl; discriminate.
Qed.

(** X15.  A request is answered 200 exactly when its body is well formed,
    every feature converts to a row, the fit succeeds, and the future frame
    and the prediction are produced: nothing else gives a 200, and nothing
    else is needed for one. *)
Theorem success_is_characterised now get_json forecaster :
  status (fst (predict now get_json forecaster)) = 200
  <-> exists data h s features df m values,
        get_json = inr data /\
        well_formed data h s features /\
        training_frame features = inr df /\
        fit df = inr m /\
        forecast m h s = inr values.
Proof.
  split.
  - intros H200.
    destruct (predict_200 _ _ _ H200)
      as (data & h & s & features & m & -> & Hv & Hm & values & Hfc & _).
    unfold fitted_model in Hm. rewrite Hv in Hm.
    destruct (py_not features); [discriminate|].
    destruct (training_frame features) as [e|df] eqn:Hdf; [discriminate|].
    destruct (fit df) as [e|m'] eqn:Hfit; [discriminate|].
    inversion Hm; subst m'.
    exists data, h, s, features, df, m, values.
    repeat split; auto using validate_Next_well_formed.
  - intros (data & h & s & features & df & m & values & -> & Hwf & Hdf & Hfit & Hfc).
    pose proof (well_formed_validate _ _ _ _ Hwf) as Hv.
    destruct (validate_Next _ _ _ _ Hv) as (_ & _ & _ & Hnot).
    rewrite (predict_runs _ _ _ _ _ _ Hv).
    rewrite (train_and_predict_fitted _ _ _ _ _ _ _ Hnot Hdf Hfit), Hfc.
    reflexivity.
Qed.

End Orchestration.

(** ** The forecaster over many requests *)

Section History.
Context `{R : Runtime}.

Lemma run_app earlier later forecaster :
  run (earlier ++ later) forecaster = run later (run earlier forecaster).
Proof. unfold run. apply fold_left_app. Qed.

Lemma run_cases requests : forall forecaster,
  run requests forecaster = forecaster
  \/ exists m now,
       run requests forecaster = {| model := Some m; last_trained := Some now |}.
Proof.
  induction requests as [|rq requests IH]; intros forecaster; [left; reflexivity|].
  change (run (rq :: requests) forecaster)
    with (run requests (snd (serve rq forecaster))).
  destruct (IH (snd (serve rq forecaster))) as [Hsame|Hset]; [|right; exact Hset].
  rewrite Hsame, serve_state.
  destruct rq as [|now get_json]; [left; reflexivity|].
  destruct (fitted_model get_json) as [m|]; [right; eauto|left; reflexivity].
Qed.

(** X13.  At every moment of the process the forecaster holds a model
    exactly when it holds a training time: the two are set together; and
    once set, neither is ever emptied again by any sequence of requests. *)
Theorem model_and_last_trained_go_together requests :
  (model (run requests init) = None <-> last_trained (run requests init) = None)
  /\ forall forecaster,
       (last_trained forecaster <> None ->
        last_trained (run requests forecaster) <> None)
       /\ (model forecaster <> None -> model (run requests forecaster) <> None).
Proof.
  split.
  - destruct (run_cases requests init) as [->|(m & now & ->)]; simpl;
      split; intros H; (reflexivity || discriminate).
  - intros forecaster.
    destruct (run_cases requests forecaster) as [->|(m & now & ->)]; simpl;
      split; intros H; (assumption || discriminate).
Qed.

(** X14.  Last writer wins: after any history, the forecaster holds the
    model and the time of the most recent request whose fit succeeded, and
    [/healthz] reports that time, whatever came before it and whatever
    requests without a successful fit came after. *)
Theorem last_successful_fit_wins earlier now get_json later m forecaster :
  fitted_model get_json = Some m ->
  (forall rq, In rq later -> fit_succeeds rq = false) ->
  run (earlier ++ POST_predict now get_json :: later) forecaster
  = {| model := Some m; last_trained := Some now |}
  /\ reported_last_trained
       (run (earlier ++ POST_predict now get_json :: later) forecaster)
     = Some (JStr (isoformat now)).
Proof.
  intros Hm Hnone.
  assert (Hrun : run (earlier ++ POST_predict now get_json :: later) forecaster
                 = {| model := Some m; last_trained := Some now |}).
  { rewrite run_app.
    change (run (POST_predict now get_json :: later) (run earlier forecaster))
      with (run later (snd (predict now get_json (run earlier forecaster)))).
    rewrite (run_no_fit later _ Hnone), predict_state, Hm. reflexivity. }
  split; [exact Hrun|]. rewrite Hrun. reflexivity.
Qed.

End History.

(** ** The further properties at concrete requests *)

(** A list that names the three fields passes the field checks and fails at
    the subscript. *)
Lemma non_object_body_never_fitted_at_list :
  status (fst (predict (R := Stub.runtime) 5
                 (inr (JArr [JStr "horizonSeconds"; JStr "stepSeconds";
                             JStr "features"])) init)) <> 200
  /\ snd (predict (R := Stub.runtime) 5
            (inr (JArr [JStr "horizonSeconds"; JStr "stepSeconds";
                        JStr "features"])) init) = init.
Proof.
  destruct (non_object_body_never_fitted (R := Stub.runtime) 5
              (JArr [JStr "horizonSeconds"; JStr "stepSeconds"; JStr "features"])
              init eq_refl) as (_ & Hstatus & Hstate).
  split; [exact Hstatus|exact Hstate].
Defined.


(** A horizon that is no int literal: the message of [int()] in a 400. *)
Lemma coercion_failures_at_word :
  predict (R := Stub.runtime) 5
    (inr (JObj [("horizonSeconds", JStr "soon"); ("stepSeconds", JInt 60);
                ("features", JArr [])])) init
  = (error_response "invalid literal for int() with base 10: 'soon'" 400, init).
Proof.
  destruct (coercion_failures (R := Stub.runtime) 5
              [("horizonSeconds", JStr "soon"); ("stepSeconds", JInt 60);
               ("features", JArr [])]
              (JStr "soon") (JInt 60) (JArr []) init eq_refl eq_refl eq_refl)
    as (Hfirst & _).
  exact (Hfirst (ValueError "invalid literal for int() with base 10: 'soon'") eq_refl).
Defined.

(** Horizon 0 with a step that would be fine. *)
Lemma range_checks_at_zero_horizon :
  predict (R := Stub.runtime) 5 (inr (Stub.request 0 60)) init
  = (error_response "horizonSeconds must be > 0" 400, init).
Proof.
  destruct (range_checks (R := Stub.runtime) 5 (Stub.request_items 0 60)
              (JInt 0) (JInt 60) _ 0 60 init
              eq_refl eq_refl eq_refl eq_refl eq_refl) as (Hhorizon & _).
  apply Hhorizon. lia.
Defined.

(** One feature only. *)
Lemma feature_count_check_at_one_feature :
  predict (R := Stub.runtime) 5
    (inr (JObj [("horizonSeconds", JInt 120); ("stepSeconds", JInt 60);
                ("features", JArr [Stub.feature "2024-01-01T00:00:00Z" 10])])) init
  = (error_response "features must contain at least 2 points for Prophet" 400, init).
Proof.
  destruct (feature_count_check (R := Stub.runtime) 5
              [("horizonSeconds", JInt 120); ("stepSeconds", JInt 60);
               ("features", JArr [Stub.feature "2024-01-01T00:00:00Z" 10])]
              (JInt 120) (JInt 60) (JArr [Stub.feature "2024-01-01T00:00:00Z" 10])
              120 60 init eq_refl eq_refl eq_refl eq_refl eq_refl)
    as (Hfew & _); [lia|].
  apply Hfew. right. exists 1. split; [reflexivity|lia].
Defined.

(** The second of two entries has no [value]. *)
Lemma first_malformed_entry_is_indexed_at_1 :
  predict (R := Stub.runtime) 5
    (inr (JObj [("horizonSeconds", JInt 120); ("stepSeconds", JInt 60);
                ("features", JArr [Stub.feature "2024-01-01T00:00:00Z" 10;
                                   JObj [("ts", JStr "2024-01-01T01:00:00Z")]])]))
    init
  = (error_response "feature[1] missing required field: value" 400, init).
Proof.
  destruct (first_malformed_entry_is_indexed (R := Stub.runtime) 5
              [("horizonSeconds", JInt 120); ("stepSeconds", JInt 60);
               ("features", JArr [Stub.feature "2024-01-01T00:00:00Z" 10;
                                  JObj [("ts", JStr "2024-01-01T01:00:00Z")]])]
              (JInt 120) (JInt 60)
              (JArr [Stub.feature "2024-01-01T00:00:00Z" 10;
                     JObj [("ts", JStr "2024-01-01T01:00:00Z")]])
              120 60 init
              [Stub.feature "2024-01-01T00:00:00Z" 10]
              (JObj [("ts", JStr "2024-01-01T01:00:00Z")]) []
              eq_refl eq_refl eq_refl eq_refl eq_refl)
    as (_ & Hvalue).
  - lia.
  - reflexivity.
  - simpl. lia.
  - repeat constructor.
  - exact (Hvalue eq_refl eq_refl).
Defined.

(** Horizon 200 s, step 60 s: the three values are the first three clamped
    predictions. *)
Lemma values_are_clamped_prefix_at_200_60 :
  exists yhat,
    [Stub.float_of_Z 420; SFzero; Stub.float_of_Z 420]
    = firstn 3 (map max0 yhat).
Proof.
  destruct (values_are_clamped_prefix (R := Stub.runtime) 5 (Stub.request 200 60)
              init 200 60 _ [Stub.float_of_Z 420; SFzero; Stub.float_of_Z 420] _
              eq_refl eq_refl)
    as (m & future & yhat & _ & _ & _ & Hvalues & _).
  exists yhat. exact Hvalues.
Defined.

(** Step equal to the horizon: one period. *)
Lemma at_least_one_period_at_60_60 : 1 <= 60 / 60.
Proof.
  destruct (at_least_one_period (R := Stub.runtime) (Stub.request 60 60) 60 60 _
              Stub.request_frame eq_refl) as (_ & Hone & _).
  exact Hone.
Defined.

(** The first timestamp does not parse, the second would not either: the
    first is the one reported. *)
Lemma first_failing_feature_is_reported_at_yesterday :
  predict (R := Stub.runtime) 5
    (inr (JObj [("horizonSeconds", JInt 120); ("stepSeconds", JInt 60);
                ("features", JArr [Stub.feature "yesterday" 10;
                                   Stub.feature "today" 12])])) init
  = (error_response "Unknown datetime string format, unable to parse: yesterday" 400,
     init).
Proof.
  destruct (first_failing_feature_is_reported (R := Stub.runtime) 5
              (JObj [("horizonSeconds", JInt 120); ("stepSeconds", JInt 60);
                     ("features", JArr [Stub.feature "yesterday" 10;
                                        Stub.feature "today" 12])])
              init 120 60 _ [] (Stub.feature "yesterday" 10)
              [Stub.feature "today" 12]
              (ValueError "Unknown datetime string format, unable to parse: yesterday")
              eq_refl eq_refl (Forall_nil _) eq_refl)
    as (Hp & _).
  exact Hp.
Defined.

(** Two strings that contain "ts" and "value" pass validation and stop at
    the subscript [f['ts']]. *)
Lemma non_object_entry_never_fitted_at_strings :
  fst (predict (R := Stub.runtime) 5
         (inr (JObj [("horizonSeconds", JInt 120); ("stepSeconds", JInt 60);
                     ("features", JArr [JStr "ts value"; JStr "value ts"])])) init)
  = error_response "internal server error" 500
  /\ status (fst (predict (R := Stub.runtime) 5
         (inr (JObj [("horizonSeconds", JInt 120); ("stepSeconds", JInt 60);
                     ("features", JArr [JStr "ts value"; JStr "value ts"])])) init))
     <> 200.
Proof.
  destruct (non_object_entry_never_fitted (R := Stub.runtime) 5
              (JObj [("horizonSeconds", JInt 120); ("stepSeconds", JInt 60);
                     ("features", JArr [JStr "ts value"; JStr "value ts"])])
              init 120 60 _ [JStr "ts value"; JStr "value ts"]
              eq_refl eq_refl)
    as (_ & _ & Hstatus).
  - apply Exists_cons_hd. reflexivity.
  - split; [reflexivity|exact Hstatus].
Defined.

(** A health check, a good request at time 5, then a rejected one. *)
Lemma last_successful_fit_wins_at_5 :
  run (R := Stub.runtime)
    [GET_healthz; @POST_predict Stub.runtime 5 (inr (Stub.request 120 60));
     @POST_predict Stub.runtime 6 (inr JNull)] init
  = @Build_ProphetForecaster Stub.runtime (Some Stub.request_frame) (Some 5).
Proof.
  destruct (last_successful_fit_wins (R := Stub.runtime)
              [GET_healthz] 5 (inr (Stub.request 120 60))
              [@POST_predict Stub.runtime 6 (inr JNull)] Stub.request_frame init
              eq_refl) as (Hrun & _).
  - intros rq [<-|[]]. reflexivity.
  - exact Hrun.
Defined.
